(** * terraform-provider-remote: connection pool and remote file operations

    A shallow embedding of

    - [internal/provider/provider.go]   (connection identity, session pool),
    - [internal/provider/connection.go] (ssh client configuration),
    - [internal/provider/remote_client.go] (file operations over ssh/scp/sftp),

    followed by the properties of the specification that concern them.

    Conventions.  A Go [int] is a 64-bit two's-complement integer, held in [Z]
    and wrapped explicitly.  Go strings are [string]s (byte sequences).  Go maps
    are [gmap]s; reading a missing key gives the zero value.  Calls into the
    ssh, scp, sftp, os and net packages are effects of a free monad [prog]; an
    environment answers them, and a run records the trace of calls made. *)

From Stdlib Require Import ZArith Lia Ascii String List.
From Stdlib Require Import DecimalString DecimalPos DecimalZ.
From stdpp Require Import base option strings gmap.

Local Open Scope Z_scope.
Local Open Scope string_scope.
Local Open Scope list_scope.

(** ** Go primitives *)

Module Go.

(** [int]: 64 bits, two's complement. *)
Definition int_bits : Z := 64.
Definition min_int : Z := - 2 ^ (int_bits - 1).
Definition max_int : Z := 2 ^ (int_bits - 1) - 1.

Definition in_int (z : Z) : Prop := min_int <= z <= max_int.

Definition wrap (z : Z) : Z :=
  (z + 2 ^ (int_bits - 1)) mod 2 ^ int_bits - 2 ^ (int_bits - 1).

(** [strconv.Itoa]. *)
Definition Itoa (z : Z) : string := NilZero.string_of_int (Z.to_int z).

(** [strconv.FormatBool]. *)
Definition FormatBool (b : bool) : string := if b then "true" else "false".

(** [strings.Join]. *)
Definition Join (elems : list string) (sep : string) : string :=
  String.concat sep elems.

(** [len(s)] for a string: its number of bytes. *)
Definition len (s : string) : Z := Z.of_nat (String.length s).

(** [strings.ReplaceAll s old new] for a non-empty [old]: the non-overlapping
    occurrences of [old] are replaced from left to right.  [skip] counts the
    bytes of a matched occurrence still to be dropped. *)
Fixpoint replace_from (skip : nat) (s old new : string) : string :=
  match s with
  | EmptyString => EmptyString
  | String a s' =>
      match skip with
      | S k => replace_from k s' old new
      | O =>
          if String.prefix old s
          then new +:+ replace_from (String.length old - 1) s' old new
          else String a (replace_from O s' old new)
      end
  end.

Definition ReplaceAll (s old new : string) : string := replace_from O s old new.

(** [strings.TrimRight s cutset] for a one-byte cutset. *)
Fixpoint TrimRight (s : string) (cut : ascii) : string :=
  match s with
  | EmptyString => EmptyString
  | String a s' =>
      match TrimRight s' cut with
      | EmptyString => if Ascii.eqb a cut then EmptyString else String a EmptyString
      | t => String a t
      end
  end.

(** The newline byte. *)
Definition nl : ascii := Ascii.ascii_of_nat 10.
Definition NL : string := String nl EmptyString.

End Go.

(** ** Errors

    A Go [error] is an interface value.  Three dynamic types occur: errors made
    by the libraries (known by their message), errors made by [fmt.Errorf] and
    [errors.New], and the [Error] struct of remote_client.go. *)

Inductive goerror : Type :=
| LibError (msg : string)
| ErrorString (msg : string)
| Error (cmd : string) (err : goerror) (stderr : string).

(** [func (e Error) Error() string], together with the [Error()] method of the
    other two dynamic types. *)
Fixpoint Error_Error (e : goerror) : string :=
  match e with
  | LibError msg => msg
  | ErrorString msg => msg
  | Error cmd err stderr =>
      let stderr := Go.TrimRight stderr Go.nl in
      "`" +:+ cmd +:+ "`" +:+ Go.NL +:+ "  " +:+ Error_Error err
          +:+ Go.NL +:+ "  " +:+ stderr
  end.

(** [fmt.Errorf(prefix + "%s", err.Error())]. *)
Definition Errorf (prefix : string) (err : goerror) : goerror :=
  ErrorString (prefix +:+ Error_Error err).

(** A Go result pair [(T, error)]. *)
Inductive result (A : Type) : Type :=
| Ok (a : A)
| Err (e : goerror).
Arguments Ok {A} a.
Arguments Err {A} e.


(** ** [schema.ResourceData]

    The provider and every resource carry at most one [conn] block and at most
    one [proxy_conn] block (lists of at most one element, [MaxItems: 1]), both
    of the shape [connectionSchemaResource]. *)

Module schema.

Record Connection : Type := {
  host : string;
  port : Z;
  timeout : Z;
  user : string;
  sudo : bool;
  agent : bool;
  password : string;
  private_key : string;
  private_key_path : string;
  private_key_env_var : string
}.

Record ResourceData : Type := {
  conn : option Connection;
  proxy_conn : option Connection;
  max_sessions : Z  (* provider configuration only; default 3 *)
}.

(** [d.Get("<block>.0.<field>")]: the field, or the zero value of its type
    when the block is absent. *)
Definition Get {A : Type} (zero : A) (block : option Connection)
    (field : Connection -> A) : A :=
  match block with
  | Some b => field b
  | None => zero
  end.

(** [d.GetOk("<block>.0.<field>")]: the value, and whether it has been set to
    a value other than the zero value. *)
Definition GetOk {A : Type} `{EqDecision A} (zero : A)
    (block : option Connection) (field : Connection -> A) : A * bool :=
  let v := Get zero block field in
  (v, negb (bool_decide (v = zero))).

(** [d.GetOk("<block>")] for a list block: set when the list is not empty. *)
Definition GetOk_block (block : option Connection) : bool :=
  match block with
  | Some _ => true
  | None => false
  end.

End schema.

Import schema.

(** ** provider.go: the connection identity *)

Definition resourceStringWithDefault (block : option Connection)
    (key : Connection -> string) (defaultValue : string) : string :=
  let '(str, ok) := GetOk "" block key in
  if ok then str else defaultValue.

Definition resourceIntWithDefault (block : option Connection)
    (key : Connection -> Z) (defaultValue : string) : string :=
  let '(integer, ok) := GetOk 0 block key in
  if ok then Go.Itoa integer else defaultValue.

Definition resourceBoolWithDefault (block : option Connection)
    (key : Connection -> bool) (defaultValue : string) : string :=
  let '(boolean, ok) := GetOk false block key in
  if ok then Go.FormatBool boolean else defaultValue.

Definition hash_elements (d : ResourceData) : list string :=
  [ Get "" (conn d) host;
    Get "" (conn d) user;
    Go.Itoa (Get 0 (conn d) port);
    resourceStringWithDefault (conn d) password "";
    resourceStringWithDefault (conn d) private_key "";
    resourceStringWithDefault (conn d) private_key_path "";
    Go.FormatBool (Get false (conn d) agent);
    resourceStringWithDefault (proxy_conn d) host "";
    resourceStringWithDefault (proxy_conn d) user "";
    resourceIntWithDefault (proxy_conn d) port "";
    resourceStringWithDefault (proxy_conn d) password "";
    resourceStringWithDefault (proxy_conn d) private_key "";
    resourceStringWithDefault (proxy_conn d) private_key_path "";
    resourceBoolWithDefault (proxy_conn d) agent "" ].

Definition resourceConnectionHash (d : ResourceData) : string :=
  let elements := hash_elements d in
  Go.Join elements "::".

(** The identity-relevant fields of the specification, read the way the code
    reads configuration ([d.Get]): host, port, user, password, private_key,
    private_key_path, private_key_env_var and the agent flag of a block. *)
Definition identity_fields (block : option Connection)
    : string * Z * string * string * string * string * string * bool :=
  (Get "" block host, Get 0 block port, Get "" block user,
   Get "" block password, Get "" block private_key,
   Get "" block private_key_path, Get "" block private_key_env_var,
   Get false block agent).

(** Pairwise equality of every identity-relevant field of the connection and
    of the proxy connection. *)
Definition identity_equal (d1 d2 : ResourceData) : Prop :=
  identity_fields (conn d1) = identity_fields (conn d2) /\
  identity_fields (proxy_conn d1) = identity_fields (proxy_conn d2).

(** The byte [':'] does not occur in [s]. *)
Fixpoint colon_free (s : string) : bool :=
  match s with
  | EmptyString => true
  | String a s' => negb (Ascii.eqb a ":") && colon_free s'
  end.

(** [s] neither contains the separator ["::"] nor ends with [':']. *)
Fixpoint separable (s : string) : bool :=
  match s with
  | EmptyString => true
  | String a s' =>
      if Ascii.eqb a ":" then
        match s' with
        | EmptyString => false
        | String b _ => negb (Ascii.eqb b ":") && separable s'
        end
      else separable s'
  end.

(** The string fields of a block that enter the identity are [separable]. *)
Definition block_separable (block : option Connection) : bool :=
  separable (Get "" block host) && separable (Get "" block user) &&
  separable (Get "" block password) && separable (Get "" block private_key) &&
  separable (Get "" block private_key_path).

Definition data_separable (d : ResourceData) : bool :=
  block_separable (conn d) && block_separable (proxy_conn d).

(** Example configurations. *)
Definition conn_root : Connection :=
  {| host := "localhost"; port := 8022; timeout := 0; user := "root";
     sudo := false; agent := false; password := "password";
     private_key := ""; private_key_path := ""; private_key_env_var := "" |}.

Definition data_direct : ResourceData :=
  {| conn := Some conn_root; proxy_conn := None; max_sessions := 3 |}.

Definition data_proxied : ResourceData :=
  {| conn := Some {| host := "remotehost2"; port := 22; timeout := 0;
                     user := "root"; sudo := false; agent := false;
                     password := "password"; private_key := "";
                     private_key_path := ""; private_key_env_var := "" |};
     proxy_conn := Some conn_root;
     max_sessions := 3 |}.

(** The block [b] with [private_key_env_var] set to [var]. *)
Definition set_private_key_env_var (b : Connection) (var : string)
    : Connection :=
  {| host := host b; port := port b; timeout := timeout b; user := user b;
     sudo := sudo b; agent := agent b; password := password b;
     private_key := private_key b; private_key_path := private_key_path b;
     private_key_env_var := var |}.

Definition conn_env (var : string) : Connection :=
  {| host := "h"; port := 22; timeout := 0; user := "u";
     sudo := false; agent := false; password := "";
     private_key := ""; private_key_path := ""; private_key_env_var := var |}.

Definition data_env (var : string) : ResourceData :=
  {| conn := Some (conn_env var); proxy_conn := None; max_sessions := 3 |}.

Definition conn_secret (pw path : string) : Connection :=
  {| host := "h"; port := 22; timeout := 0; user := "u";
     sudo := false; agent := false; password := pw;
     private_key := ""; private_key_path := path; private_key_env_var := "" |}.

Definition data_secret (pw path : string) : ResourceData :=
  {| conn := Some (conn_secret pw path); proxy_conn := None; max_sessions := 3 |}.

(** ** The libraries, as effects *)

(** Handles of the objects the libraries own. *)
Definition ssh_Client := nat.   (* *ssh.Client *)
Definition ssh_Session := nat.  (* *ssh.Session *)
Definition stdin_Pipe := nat.   (* io.WriteCloser of a session *)
Definition scp_Client := nat.   (* scp.Client *)
Definition sftp_Client := nat.  (* *sftp.Client *)
Definition sftp_File := nat.    (* *sftp.File *)
Definition net_Conn := nat.     (* net.Conn *)
Definition ssh_Signer := nat.   (* ssh.Signer *)

(** [ssh.AuthMethod] and [ssh.ClientConfig], with the fields the code sets.
    [HostKeyCallback] is always [ssh.InsecureIgnoreHostKey()]. *)
Inductive AuthMethod : Type :=
| Password (secret : string)
| PublicKeys (signer : ssh_Signer)
| PublicKeysCallback (agentConn : net_Conn).

Record ClientConfig : Type := {
  User : string;
  Auth : list AuthMethod;
  Timeout : Z  (* time.Duration, nanoseconds *)
}.

(** The three transports of the file operations. *)
Inductive transport : Type := Shell | BulkCopy | NativeTransfer | Network | Local.

(** One constructor per library call the code makes; the index is the type of
    the answer.  [Session_Run] answers with the bytes the command wrote to its
    standard error and with the error of [Run]; [Session_Output] with the
    standard output and the error. *)
Inductive eff : Type -> Type :=
| ssh_Dial (addr : string) (config : ClientConfig) : eff (result ssh_Client)
| Client_Dial (c : ssh_Client) (addr : string) : eff (result net_Conn)
| ssh_NewClientConn (conn : net_Conn) (addr : string) (config : ClientConfig)
    : eff (result ssh_Client)
| Client_Close (c : ssh_Client) : eff (option goerror)
| Client_NewSession (c : ssh_Client) : eff (result ssh_Session)
| Session_Close (s : ssh_Session) : eff unit
| Session_StdinPipe (s : ssh_Session) : eff (result stdin_Pipe)
| Stdin_WriteClose (w : stdin_Pipe) (content : string) : eff unit
| Session_Run (s : ssh_Session) (cmd : string) : eff (string * option goerror)
| Session_Output (s : ssh_Session) (cmd : string) : eff (string * option goerror)
| scp_NewClientBySSH (c : ssh_Client) : eff (result scp_Client)
| scp_Close (c : scp_Client) : eff unit
| scp_CopyFile (c : scp_Client) (content path permissions : string)
    : eff (option goerror)
| sftp_NewClient (c : ssh_Client) : eff (result sftp_Client)
| sftp_Close (c : sftp_Client) : eff unit
| sftp_Open (c : sftp_Client) (path : string) : eff (result sftp_File)
| File_Close (f : sftp_File) : eff unit
| File_WriteTo (f : sftp_File) : eff (string * option goerror)
| sftp_Remove (c : sftp_Client) (path : string) : eff (option goerror)
| ssh_ParsePrivateKey (pem : string) : eff (result ssh_Signer)
| ioutil_ReadFile (path : string) : eff (result string)
| os_Getenv (name : string) : eff string
| net_Dial_unix (addr : string) : eff (result net_Conn).

Definition transport_of {X : Type} (e : eff X) : transport :=
  match e with
  | ssh_Dial _ _ | Client_Dial _ _ | ssh_NewClientConn _ _ _ | Client_Close _ =>
      Network
  | Client_NewSession _ | Session_Close _ | Session_StdinPipe _
  | Stdin_WriteClose _ _ | Session_Run _ _ | Session_Output _ _ => Shell
  | scp_NewClientBySSH _ | scp_Close _ | scp_CopyFile _ _ _ _ => BulkCopy
  | sftp_NewClient _ | sftp_Close _ | sftp_Open _ _ | File_Close _
  | File_WriteTo _ | sftp_Remove _ _ => NativeTransfer
  | ssh_ParsePrivateKey _ | ioutil_ReadFile _ | os_Getenv _
  | net_Dial_unix _ => Local
  end.

(** ** Programs: the free monad over [eff] *)

Inductive prog (A : Type) : Type :=
| Ret (a : A)
| Vis {X : Type} (e : eff X) (k : X -> prog A).
Arguments Ret {A} a.
Arguments Vis {A X} e k.

Fixpoint bind {A B : Type} (p : prog A) (f : A -> prog B) : prog B :=
  match p with
  | Ret a => f a
  | Vis e k => Vis e (fun x => bind (k x) f)
  end.

Definition call {X : Type} (e : eff X) : prog X := Vis e Ret.

#[global] Instance prog_ret : MRet prog := @Ret.
#[global] Instance prog_bind : MBind prog := fun A B f p => bind p f.

(** [defer cleanup] in front of [body]: [cleanup] runs when [body] returns. *)
Definition defer {A : Type} (cleanup : prog unit) (body : prog A) : prog A :=
  a ← body; _ ← cleanup; Ret a.

(** An environment answers every call from its own state. *)
Record Env : Type := {
  World : Type;
  handle : forall X : Type, eff X -> World -> X * World
}.

(** A call together with its answer. *)
Inductive event : Type :=
| Event {X : Type} (e : eff X) (x : X).

Definition event_transport (ev : event) : transport :=
  match ev with
  | Event e _ => transport_of e
  end.

(** Running a program: its result, the final state of the environment and the
    trace of calls in the order they were made. *)
Fixpoint exec {A : Type} (E : Env) (p : prog A) (w : World E)
    : A * World E * list event :=
  match p with
  | Ret a => (a, w, [])
  | Vis e k =>
      let '(x, w1) := handle E _ e w in
      let '(a, w2, tr) := exec E (k x) w1 in
      (a, w2, Event e x :: tr)
  end.

Definition result_of {A : Type} (E : Env) (p : prog A) (w : World E) : A :=
  (exec E p w).1.1.

Definition trace_of {A : Type} (E : Env) (p : prog A) (w : World E)
    : list event :=
  (exec E p w).2.

(** The commands handed to [Session.Run] and [Session.Output] in a trace. *)
Definition command_of (ev : event) : option string :=
  match ev with
  | Event (Session_Run _ cmd) _ => Some cmd
  | Event (Session_Output _ cmd) _ => Some cmd
  | _ => None
  end.

Definition commands (tr : list event) : list string :=
  omap command_of tr.

(** Whether every call of a trace belongs to transport [t]. *)
Definition only_transport (t : transport) (tr : list event) : Prop :=
  Forall (fun ev => event_transport ev = t) tr.

(** ** remote_client.go *)

Record RemoteClient : Type := { sshClient : ssh_Client }.

Definition run (s : ssh_Session) (cmd : string) : prog (option goerror) :=
  '(b, err) ← call (Session_Run s cmd);
  match err with
  | Some err => Ret (Some (Error cmd err b))
  | None => Ret None
  end.

Definition GetSSHClient (c : RemoteClient) : ssh_Client := sshClient c.

Definition GetSCPClient (c : RemoteClient) : prog (result scp_Client) :=
  call (scp_NewClientBySSH (sshClient c)).

Definition GetSFTPClient (c : RemoteClient) : prog (result sftp_Client) :=
  call (sftp_NewClient (sshClient c)).

Definition WriteFileSCP (c : RemoteClient) (content path permissions : string)
    : prog (option goerror) :=
  r ← GetSCPClient c;
  match r with
  | Err err => Ret (Some err)
  | Ok scpClient =>
      defer (call (scp_Close scpClient))
        (call (scp_CopyFile scpClient content path permissions))
  end.

(** The goroutine that writes [content] to the standard input of the session
    and closes it is started before the command; its errors are dropped. *)
Definition WriteFileShell (c : RemoteClient) (content path : string)
    : prog (option goerror) :=
  let sshClient := GetSSHClient c in
  r ← call (Client_NewSession sshClient);
  match r with
  | Err err => Ret (Some err)
  | Ok session =>
      defer (call (Session_Close session))
        (r ← call (Session_StdinPipe session);
         match r with
         | Err err => Ret (Some err)
         | Ok stdin =>
             _ ← call (Stdin_WriteClose stdin content);
             let cmd := "cat /dev/stdin | sudo tee " +:+ path in
             run session cmd
         end)
  end.

Definition WriteFile (c : RemoteClient) (content path permissions : string)
    (sudo : bool) : prog (option goerror) :=
  if sudo then WriteFileShell c content path
  else WriteFileSCP c content path permissions.

Definition ChmodFile (c : RemoteClient) (path permissions : string)
    (sudo : bool) : prog (option goerror) :=
  let sshClient := GetSSHClient c in
  r ← call (Client_NewSession sshClient);
  match r with
  | Err err => Ret (Some err)
  | Ok session =>
      defer (call (Session_Close session))
        (let cmd := "chmod " +:+ permissions +:+ " " +:+ path in
         let cmd := if sudo then "sudo " +:+ cmd else cmd in
         run session cmd)
  end.

Definition ChgrpFile (c : RemoteClient) (path group : string)
    (sudo : bool) : prog (option goerror) :=
  let sshClient := GetSSHClient c in
  r ← call (Client_NewSession sshClient);
  match r with
  | Err err => Ret (Some err)
  | Ok session =>
      defer (call (Session_Close session))
        (let cmd := "chgrp " +:+ group +:+ " " +:+ path in
         let cmd := if sudo then "sudo " +:+ cmd else cmd in
         run session cmd)
  end.

Definition ChownFile (c : RemoteClient) (path owner : string)
    (sudo : bool) : prog (option goerror) :=
  let sshClient := GetSSHClient c in
  r ← call (Client_NewSession sshClient);
  match r with
  | Err err => Ret (Some err)
  | Ok session =>
      defer (call (Session_Close session))
        (let cmd := "chown " +:+ owner +:+ " " +:+ path in
         let cmd := if sudo then "sudo " +:+ cmd else cmd in
         run session cmd)
  end.

Definition FileExists (c : RemoteClient) (path : string) (sudo : bool)
    : prog (bool * option goerror) :=
  let sshClient := GetSSHClient c in
  r ← call (Client_NewSession sshClient);
  match r with
  | Err err => Ret (false, Some err)
  | Ok session =>
      defer (call (Session_Close session))
        (let cmd := "test -f " +:+ path in
         let cmd := if sudo then "sudo " +:+ cmd else cmd in
         err ← run session cmd;
         match err with
         | Some _ =>
             r ← call (Client_NewSession sshClient);
             match r with
             | Err err => Ret (false, Some err)
             | Ok session2 =>
                 defer (call (Session_Close session2))
                   (let cmd := "test ! -f " +:+ path in
                    let cmd := if sudo then "sudo " +:+ cmd else cmd in
                    '(_, err) ← call (Session_Run session2 cmd);
                    Ret (false, err))
             end
         | None => Ret (true, None)
         end)
  end.

Definition ReadFileSFTP (c : RemoteClient) (path : string)
    : prog (string * option goerror) :=
  r ← GetSFTPClient c;
  match r with
  | Err err => Ret ("", Some err)
  | Ok sftpClient =>
      defer (call (sftp_Close sftpClient))
        (r ← call (sftp_Open sftpClient path);
         match r with
         | Err err => Ret ("", Some err)
         | Ok file =>
             defer (call (File_Close file))
               ('(content, err) ← call (File_WriteTo file);
                match err with
                | Some err => Ret ("", Some err)
                | None => Ret (content, None)
                end)
         end)
  end.

Definition ReadFileShell (c : RemoteClient) (path : string)
    : prog (string * option goerror) :=
  let sshClient := GetSSHClient c in
  r ← call (Client_NewSession sshClient);
  match r with
  | Err err => Ret ("", Some err)
  | Ok session =>
      defer (call (Session_Close session))
        (let cmd := "sudo cat " +:+ path in
         '(content, err) ← call (Session_Output session cmd);
         match err with
         | Some err => Ret ("", Some err)
         | None => Ret (content, None)
         end)
  end.

Definition ReadFile (c : RemoteClient) (path : string) (sudo : bool)
    : prog (string * option goerror) :=
  if sudo then ReadFileShell c path else ReadFileSFTP c path.

Definition ReadFilePermissions (c : RemoteClient) (path : string) (sudo : bool)
    : prog (string * option goerror) :=
  let sshClient := GetSSHClient c in
  r ← call (Client_NewSession sshClient);
  match r with
  | Err err => Ret ("", Some err)
  | Ok session =>
      defer (call (Session_Close session))
        (let cmd := "stat -c %a " +:+ path in
         let cmd := if sudo then "sudo " +:+ cmd else cmd in
         '(output, err) ← call (Session_Output session cmd);
         match err with
         | Some err => Ret ("", Some err)
         | None =>
             let permissions := Go.ReplaceAll output Go.NL "" in
             let permissions :=
               if ((0 <? Go.len permissions) && (Go.len permissions <? 4))%Z
               then "0" +:+ permissions
               else permissions in
             Ret (permissions, None)
         end)
  end.

Definition StatFile (c : RemoteClient) (path char : string) (sudo : bool)
    : prog (string * option goerror) :=
  let sshClient := GetSSHClient c in
  r ← call (Client_NewSession sshClient);
  match r with
  | Err err => Ret ("", Some err)
  | Ok session =>
      defer (call (Session_Close session))
        (let cmd := "stat -c %" +:+ char +:+ " " +:+ path in
         let cmd := if sudo then "sudo " +:+ cmd else cmd in
         '(output, err) ← call (Session_Output session cmd);
         match err with
         | Some err => Ret ("", Some err)
         | None =>
             let group := Go.ReplaceAll output Go.NL "" in
             Ret (group, None)
         end)
  end.

Definition ReadFileOwner (c : RemoteClient) (path : string) (sudo : bool) :=
  StatFile c path "u" sudo.

Definition ReadFileGroup (c : RemoteClient) (path : string) (sudo : bool) :=
  StatFile c path "g" sudo.

Definition ReadFileOwnerName (c : RemoteClient) (path : string) (sudo : bool) :=
  StatFile c path "U" sudo.

Definition ReadFileGroupName (c : RemoteClient) (path : string) (sudo : bool) :=
  StatFile c path "G" sudo.

Definition DeleteFileSFTP (c : RemoteClient) (path : string)
    : prog (option goerror) :=
  r ← GetSFTPClient c;
  match r with
  | Err err => Ret (Some err)
  | Ok sftpClient =>
      defer (call (sftp_Close sftpClient))
        (call (sftp_Remove sftpClient path))
  end.

Definition DeleteFileShell (c : RemoteClient) (path : string)
    : prog (option goerror) :=
  let sshClient := GetSSHClient c in
  r ← call (Client_NewSession sshClient);
  match r with
  | Err err => Ret (Some err)
  | Ok session =>
      defer (call (Session_Close session))
        (let cmd := "sudo rm " +:+ path in
         run session cmd)
  end.

Definition DeleteFile (c : RemoteClient) (path : string) (sudo : bool)
    : prog (option goerror) :=
  if sudo then DeleteFileShell c path else DeleteFileSFTP c path.

Definition dial_failure : string :=
  "couldn't establish a connection to the remote server: ".

Definition NewRemoteClient (host : string) (clientConfig : ClientConfig)
    : prog (result RemoteClient) :=
  r ← call (ssh_Dial host clientConfig);
  match r with
  | Err err => Ret (Err (Errorf dial_failure err))
  | Ok client => Ret (Ok {| sshClient := client |})
  end.

(** [ssh.NewClient(ncc, chans, reqs)] cannot fail; the client it makes is the
    answer of [ssh_NewClientConn]. *)
Definition NewRemoteProxyClient (host : string) (clientConfig : ClientConfig)
    (proxyHost : string) (proxyClientConfig : ClientConfig)
    : prog (result RemoteClient) :=
  r ← call (ssh_Dial proxyHost proxyClientConfig);
  match r with
  | Err err => Ret (Err (Errorf dial_failure err))
  | Ok proxyClient =>
      r ← call (Client_Dial proxyClient host);
      match r with
      | Err err => Ret (Err (Errorf dial_failure err))
      | Ok conn =>
          r ← call (ssh_NewClientConn conn host clientConfig);
          match r with
          | Err err => Ret (Err err)
          | Ok client => Ret (Ok {| sshClient := client |})
          end
      end
  end.

Definition Close (c : RemoteClient) : prog (option goerror) :=
  call (Client_Close (sshClient c)).

(** ** connection.go *)

Definition add_auth (clientConfig : ClientConfig) (m : AuthMethod)
    : ClientConfig :=
  {| User := User clientConfig;
     Auth := Auth clientConfig ++ [m];
     Timeout := Timeout clientConfig |}.

Definition set_timeout (clientConfig : ClientConfig) (t : Z) : ClientConfig :=
  {| User := User clientConfig; Auth := Auth clientConfig; Timeout := t |}.

(** [time.Millisecond], in nanoseconds. *)
Definition Millisecond : Z := 1000000.

(** Sequencing of steps that return early on an error. *)
Definition and_then {A B : Type} (p : prog (result A))
    (f : A -> prog (result B)) : prog (result B) :=
  r ← p;
  match r with
  | Ok a => f a
  | Err err => Ret (Err err)
  end.

(** [connFromResourceData(prefix, ctx, d)]; [prefix] selects the block.  The
    Go function returns [(host, &clientConfig, nil)] or [("", nil, err)]. *)
Definition connFromResourceData (block : option Connection)
    : prog (result (string * ClientConfig)) :=
  let clientConfig :=
    {| User := Get "" block user; Auth := []; Timeout := 0 |} in
  let '(password, ok) := GetOk "" block password in
  let clientConfig :=
    if ok then add_auth clientConfig (Password password) else clientConfig in
  and_then
    (let '(private_key, ok) := GetOk "" block private_key in
     if ok then
       r ← call (ssh_ParsePrivateKey private_key);
       match r with
       | Err err =>
           Ret (Err (Errorf
             "couldn't create a ssh client config from private key: " err))
       | Ok signer => Ret (Ok (add_auth clientConfig (PublicKeys signer)))
       end
     else Ret (Ok clientConfig))
    (fun clientConfig =>
  and_then
    (let '(private_key_path, ok) := GetOk "" block private_key_path in
     if ok then
       r ← call (ioutil_ReadFile private_key_path);
       match r with
       | Err err => Ret (Err (Errorf "couldn't read private key: " err))
       | Ok content =>
           r ← call (ssh_ParsePrivateKey content);
           match r with
           | Err err =>
               Ret (Err (Errorf
                 "couldn't create a ssh client config from private key file: "
                 err))
           | Ok signer => Ret (Ok (add_auth clientConfig (PublicKeys signer)))
           end
       end
     else Ret (Ok clientConfig))
    (fun clientConfig =>
  and_then
    (let '(private_key_env_var, ok) := GetOk "" block private_key_env_var in
     if ok then
       private_key ← call (os_Getenv private_key_env_var);
       r ← call (ssh_ParsePrivateKey private_key);
       match r with
       | Err err =>
           Ret (Err (Errorf
             "couldn't create a ssh client config from private key env var: "
             err))
       | Ok signer => Ret (Ok (add_auth clientConfig (PublicKeys signer)))
       end
     else Ret (Ok clientConfig))
    (fun clientConfig =>
  and_then
    (let '(enableAgent, ok) := GetOk false block agent in
     if ok && enableAgent then
       sock ← call (os_Getenv "SSH_AUTH_SOCK");
       r ← call (net_Dial_unix sock);
       match r with
       | Err err => Ret (Err (Errorf "couldn't connect to SSH agent: " err))
       | Ok connection =>
           Ret (Ok (add_auth clientConfig (PublicKeysCallback connection)))
       end
     else Ret (Ok clientConfig))
    (fun clientConfig =>
  let '(timeout, ok) := GetOk 0 block timeout in
  let clientConfig :=
    if ok then set_timeout clientConfig (Go.wrap (timeout * Millisecond))
    else clientConfig in
  let host := Get "" block host +:+ ":" +:+ Go.Itoa (Get 0 block port) in
  Ret (Ok (host, clientConfig)))))).

Definition ConnectionFromResourceData (d : ResourceData)
    : prog (result (string * ClientConfig)) :=
  let ok := GetOk_block (conn d) in
  if negb ok
  then Ret (Err (ErrorString "resouce does not have a connection configured"))
  else connFromResourceData (conn d).

(** Returns [("", nil, nil)], here [Ok None], when no proxy is configured. *)
Definition ProxyConnectionFromResourceData (d : ResourceData)
    : prog (result (option (string * ClientConfig))) :=
  let ok := GetOk_block (proxy_conn d) in
  if negb ok then Ret (Ok None)
  else and_then (connFromResourceData (proxy_conn d))
         (fun hc => Ret (Ok (Some hc))).

(** ** provider.go: the session pool *)

Record apiClient : Type := {
  resourceData : ResourceData;
  remoteClients : gmap string RemoteClient;
  activeSessions : gmap string Z;
  maxSessions : Z
}.

(** The mutex [mux] has no field: each function below that runs between
    [Lock] and [Unlock] is one atomic step of the pool. *)
Definition configure (d : ResourceData) : apiClient :=
  {| resourceData := d;
     maxSessions := max_sessions d;
     remoteClients := ∅;
     activeSessions := ∅ |}.

(** [c.activeSessions[connectionID]], zero for a missing key. *)
Definition active (c : apiClient) (connectionID : string) : Z :=
  default 0 (activeSessions c !! connectionID).

Definition set_active (c : apiClient) (connectionID : string) (n : Z)
    : apiClient :=
  {| resourceData := resourceData c;
     remoteClients := remoteClients c;
     activeSessions := <[connectionID := n]> (activeSessions c);
     maxSessions := maxSessions c |}.

Definition set_client (c : apiClient) (connectionID : string)
    (client : RemoteClient) : apiClient :=
  {| resourceData := resourceData c;
     remoteClients := <[connectionID := client]> (remoteClients c);
     activeSessions := activeSessions c;
     maxSessions := maxSessions c |}.

Definition delete_client (c : apiClient) (connectionID : string) : apiClient :=
  {| resourceData := resourceData c;
     remoteClients := delete connectionID (remoteClients c);
     activeSessions := activeSessions c;
     maxSessions := maxSessions c |}.

Definition getConnWithDefault (c : apiClient) (d : ResourceData)
    : result ResourceData :=
  if GetOk_block (conn d) then Ok d
  else if GetOk_block (conn (resourceData c)) then Ok (resourceData c)
  else Err (ErrorString
    "neither the provider nor the resource/data source have a configured connection").

Definition remoteClientFromResourceData (d : ResourceData)
    : prog (result RemoteClient) :=
  r ← ConnectionFromResourceData d;
  match r with
  | Err err => Ret (Err err)
  | Ok (host, clientConfig) =>
      r ← ProxyConnectionFromResourceData d;
      match r with
      | Err err => Ret (Err err)
      | Ok (Some (proxyHost, proxyClientConfig)) =>
          if negb (String.eqb proxyHost "")
          then NewRemoteProxyClient host clientConfig proxyHost proxyClientConfig
          else NewRemoteClient host clientConfig
      | Ok None => NewRemoteClient host clientConfig
      end
  end.

(** One turn of the loop of [getRemoteClient], from [Lock] to the [Unlock]
    that follows it: either the loop goes round ([Continue]) or the function
    returns. *)
Inductive iteration (A : Type) : Type :=
| Continue
| Return (a : A).
Arguments Continue {A}.
Arguments Return {A} a.

Definition getRemoteClient_iteration (d : ResourceData) (c : apiClient)
    : prog (iteration (result RemoteClient) * apiClient) :=
  let connectionID := resourceConnectionHash d in
  match remoteClients c !! connectionID with
  | Some client =>
      if (maxSessions c <=? active c connectionID)%Z
      then Ret (Continue, c)
      else
        let c := set_active c connectionID
                   (Go.wrap (active c connectionID + 1)) in
        Ret (Return (Ok client), c)
  | None =>
      r ← remoteClientFromResourceData d;
      match r with
      | Err err => Ret (Return (Err err), c)
      | Ok client =>
          let c := set_client c connectionID client in
          let c := set_active c connectionID 1 in
          Ret (Return (Ok client), c)
      end
  end.

(** [getRemoteClient] run alone for at most [fuel] turns of its loop; [None]
    when it is still waiting for a free session. *)
Fixpoint getRemoteClient (fuel : nat) (d : ResourceData) (c : apiClient)
    : prog (option (result RemoteClient) * apiClient) :=
  match fuel with
  | O => Ret (None, c)
  | S fuel' =>
      '(r, c) ← getRemoteClient_iteration d c;
      match r with
      | Continue => getRemoteClient fuel' d c
      | Return r => Ret (Some r, c)
      end
  end.

(** What a call does besides returning: [client.Close()] on a nil client is a
    nil-pointer dereference. *)
Inductive completion (A : Type) : Type :=
| Returned (a : A)
| Panicked.
Arguments Returned {A} a.
Arguments Panicked {A}.

Definition closeRemoteClient (d : ResourceData) (c : apiClient)
    : prog (completion (option goerror) * apiClient) :=
  let connectionID := resourceConnectionHash d in
  let c := set_active c connectionID (Go.wrap (active c connectionID - 1)) in
  if (active c connectionID =? 0)%Z then
    let client := remoteClients c !! connectionID in
    let c := delete_client c connectionID in
    match client with
    | Some client =>
        err ← Close client;
        Ret (Returned err, c)
    | None => Ret (Panicked, c)
    end
  else Ret (Returned None, c).

(** *** Sequences of pool steps

    Callers run concurrently, and the mutex serialises them: an execution of
    the pool is a sequence of atomic steps, each a turn of the loop of
    [getRemoteClient] or a whole [closeRemoteClient]. *)
Inductive pool_call : Type :=
| Acquire (d : ResourceData)
| Release (d : ResourceData).

Inductive outcome : Type :=
| Acquired (client : RemoteClient)
| AcquireFailed (err : goerror)
| Waiting
| Released (err : option goerror)
| ReleasePanicked.

Definition pool_step (o : pool_call) (c : apiClient)
    : prog (outcome * apiClient) :=
  match o with
  | Acquire d =>
      '(r, c) ← getRemoteClient_iteration d c;
      Ret (match r with
           | Continue => Waiting
           | Return (Ok client) => Acquired client
           | Return (Err err) => AcquireFailed err
           end, c)
  | Release d =>
      '(r, c) ← closeRemoteClient d c;
      Ret (match r with
           | Returned err => Released err
           | Panicked => ReleasePanicked
           end, c)
  end.

Fixpoint pool_run (calls : list pool_call) (c : apiClient)
    : prog (list outcome * apiClient) :=
  match calls with
  | [] => Ret ([], c)
  | o :: calls' =>
      '(out, c) ← pool_step o c;
      '(outs, c) ← pool_run calls' c;
      Ret (out :: outs, c)
  end.

Definition call_identity (o : pool_call) : string :=
  match o with
  | Acquire d => resourceConnectionHash d
  | Release d => resourceConnectionHash d
  end.

(** The sessions of identity [k] that callers hold after a sequence of steps
    with the given outcomes, starting from [h]: every acquisition that returned
    a client adds one, every release takes one away. *)
Fixpoint held (k : string) (h : Z) (calls : list pool_call)
    (outs : list outcome) : Z :=
  match calls, outs with
  | o :: calls', out :: outs' =>
      if String.eqb (call_identity o) k then
        match o, out with
        | Acquire _, Acquired _ => held k (h + 1) calls' outs'
        | Release _, _ => held k (h - 1) calls' outs'
        | _, _ => held k h calls' outs'
        end
      else held k h calls' outs'
  | _, _ => h
  end.

(** Every release of identity [k] gives back a session that is held. *)
Fixpoint paired (k : string) (h : Z) (calls : list pool_call)
    (outs : list outcome) : bool :=
  match calls, outs with
  | o :: calls', out :: outs' =>
      if String.eqb (call_identity o) k then
        match o, out with
        | Acquire _, Acquired _ => paired k (h + 1) calls' outs'
        | Release _, _ => (1 <=? h)%Z && paired k (h - 1) calls' outs'
        | _, _ => paired k h calls' outs'
        end
      else paired k h calls' outs'
  | _, _ => true
  end.

(** The clients closed in a trace, in order. *)
Definition closed_client (ev : event) : option ssh_Client :=
  match ev with
  | Event (Client_Close c) _ => Some c
  | _ => None
  end.

Definition closed_clients (tr : list event) : list ssh_Client :=
  omap closed_client tr.

(** ** Concrete environments

    The state of these environments is the number of calls answered so far,
    which also serves as the next fresh handle. *)

Definition answers : Type := forall X : Type, eff X -> nat -> X.

Definition counting (a : answers) : Env :=
  {| World := nat; handle := fun X e n => (a X e n, S n) |}.

(** How a remote side behaves: which dials fail, which sessions are refused,
    and what commands answer.  Everything else succeeds. *)
Record behaviour : Type := {
  on_dial : string -> option goerror;
  on_tunnel : string -> option goerror;
  on_handshake : string -> option goerror;
  on_session : nat -> option goerror;
  on_run : string -> string * option goerror;
  on_output : string -> string * option goerror
}.

Definition fallible (n : nat) (failure : option goerror) : result nat :=
  match failure with
  | Some err => Err err
  | None => Ok n
  end.

Definition behave (b : behaviour) : answers := fun X e n =>
  match e in eff X return X with
  | ssh_Dial addr _ => fallible n (on_dial b addr)
  | Client_Dial _ addr => fallible n (on_tunnel b addr)
  | ssh_NewClientConn _ addr _ => fallible n (on_handshake b addr)
  | Client_Close _ => None
  | Client_NewSession _ => fallible n (on_session b n)
  | Session_Close _ => tt
  | Session_StdinPipe _ => Ok n
  | Stdin_WriteClose _ _ => tt
  | Session_Run _ cmd => on_run b cmd
  | Session_Output _ cmd => on_output b cmd
  | scp_NewClientBySSH _ => Ok n
  | scp_Close _ => tt
  | scp_CopyFile _ _ _ _ => None
  | sftp_NewClient _ => Ok n
  | sftp_Close _ => tt
  | sftp_Open _ _ => Ok n
  | File_Close _ => tt
  | File_WriteTo _ => ("", None)
  | sftp_Remove _ _ => None
  | ssh_ParsePrivateKey _ => Ok n
  | ioutil_ReadFile _ => Ok ""
  | os_Getenv _ => ""
  | net_Dial_unix _ => Ok n
  end.

Definition quiet : behaviour :=
  {| on_dial := fun _ => None;
     on_tunnel := fun _ => None;
     on_handshake := fun _ => None;
     on_session := fun _ => None;
     on_run := fun _ => ("", None);
     on_output := fun _ => ("", None) |}.

(** Every command prints [out] and exits 0. *)
Definition printing (out : string) : behaviour :=
  {| on_dial := fun _ => None;
     on_tunnel := fun _ => None;
     on_handshake := fun _ => None;
     on_session := fun _ => None;
     on_run := fun _ => ("", None);
     on_output := fun _ => (out, None) |}.

(** Every command fails with [err], having written [stderr]. *)
Definition failing (stderr : string) (err : goerror) : behaviour :=
  {| on_dial := fun _ => None;
     on_tunnel := fun _ => None;
     on_handshake := fun _ => None;
     on_session := fun _ => None;
     on_run := fun _ => (stderr, Some err);
     on_output := fun _ => ("", Some err) |}.

(** A host on which [path] is not a regular file: [test -f path] exits 1 and
    every other command exits 0. *)
Definition exit_status_1 : goerror := LibError "Process exited with status 1".

Definition file_missing (path : string) : behaviour :=
  {| on_dial := fun _ => None;
     on_tunnel := fun _ => None;
     on_handshake := fun _ => None;
     on_session := fun _ => None;
     on_run := fun cmd =>
       if String.eqb cmd ("test -f " +:+ path) then ("", Some exit_status_1)
       else ("", None);
     on_output := fun _ => ("", None) |}.

(** The dial to [addr] fails with [err]. *)
Definition unreachable (addr : string) (err : goerror) : behaviour :=
  {| on_dial := fun a => if String.eqb a addr then Some err else None;
     on_tunnel := fun _ => None;
     on_handshake := fun _ => None;
     on_session := fun _ => None;
     on_run := fun _ => ("", None);
     on_output := fun _ => ("", None) |}.

(** The proxy cannot open a channel to [addr]. *)
Definition tunnel_refused (addr : string) (err : goerror) : behaviour :=
  {| on_dial := fun _ => None;
     on_tunnel := fun a => if String.eqb a addr then Some err else None;
     on_handshake := fun _ => None;
     on_session := fun _ => None;
     on_run := fun _ => ("", None);
     on_output := fun _ => ("", None) |}.

(** The handshake with [addr] over the tunnel fails. *)
Definition handshake_refused (addr : string) (err : goerror) : behaviour :=
  {| on_dial := fun _ => None;
     on_tunnel := fun _ => None;
     on_handshake := fun a => if String.eqb a addr then Some err else None;
     on_session := fun _ => None;
     on_run := fun _ => ("", None);
     on_output := fun _ => ("", None) |}.

Definition client7 : RemoteClient := {| sshClient := 7%nat |}.

Definition connection_refused : goerror := LibError "connection refused".

(** ** Vocabulary of the properties *)

(** Whether the environment grants the session that client [c] asks for in
    state [w]. *)
Definition session_granted (E : Env) (c : RemoteClient) (w : World E) : bool :=
  match (handle E _ (Client_NewSession (GetSSHClient c)) w).1 with
  | Ok _ => true
  | Err _ => false
  end.

Definition sudo_prefixed (cmd : string) : bool := String.prefix "sudo " cmd.

(** The command text with the elevation prefix. *)
Definition elevated (sudo : bool) (cmd : string) : string :=
  if sudo then "sudo " +:+ cmd else cmd.

(** Whether, the session granted, its standard input pipe is granted too. *)
Definition stdin_granted (E : Env) (c : RemoteClient) (w : World E) : bool :=
  match handle E _ (Client_NewSession (GetSSHClient c)) w with
  | (Ok session, w1) =>
      match (handle E _ (Session_StdinPipe session) w1).1 with
      | Ok _ => true
      | Err _ => false
      end
  | (Err _, _) => false
  end.

Definition scp_granted (E : Env) (c : RemoteClient) (w : World E) : bool :=
  match (handle E _ (scp_NewClientBySSH (sshClient c)) w).1 with
  | Ok _ => true
  | Err _ => false
  end.

(** The transport an operation is routed to: the shell when elevation is
    requested, its own protocol otherwise. *)
Definition route (sudo : bool) (plain : transport) : transport :=
  if sudo then Shell else plain.

(** A trace that uses transport [t] and no other. *)
Definition routed (t : transport) (tr : list event) : Prop :=
  tr <> [] /\ only_transport t tr.

(** The files handed to the bulk copy in a trace: content, path and
    permissions. *)
Definition copy_of (ev : event) : option (string * string * string) :=
  match ev with
  | Event (scp_CopyFile _ content path permissions) _ =>
      Some (content, path, permissions)
  | _ => None
  end.

Definition copies (tr : list event) : list (string * string * string) :=
  omap copy_of tr.

(** The commands of a trace that failed: command text, error of the
    transport and bytes on standard error for [Session.Run]; command text and
    error for [Session.Output]. *)
Definition failed_run (ev : event) : option (string * goerror * string) :=
  match ev with
  | Event e x =>
      match e in eff X return X -> option (string * goerror * string) with
      | Session_Run _ cmd => fun x =>
          match x with
          | (stderr, Some err) => Some (cmd, err, stderr)
          | (_, None) => None
          end
      | _ => fun _ => None
      end x
  end.

Definition failed_runs (tr : list event) : list (string * goerror * string) :=
  omap failed_run tr.






(** The stages of a connection through a proxy, and the stage a trace failed
    at, if any. *)
Inductive stage : Type := ProxyDial | Tunnel | Handshake.

Definition stage_failure (ev : event) : option stage :=
  match ev with
  | Event (ssh_Dial _ _) (Err _) => Some ProxyDial
  | Event (Client_Dial _ _) (Err _) => Some Tunnel
  | Event (ssh_NewClientConn _ _ _) (Err _) => Some Handshake
  | _ => None
  end.

Definition failed_stage (tr : list event) : option stage :=
  head (omap stage_failure tr).

Definition config_root : ClientConfig :=
  {| User := "root"; Auth := [Password "password"]; Timeout := 0 |}.

(** What one step of the pool can do, whatever the environment answers: the
    transitions of the state machine of the pool. *)
Inductive pool_trans : pool_call -> apiClient -> outcome -> apiClient -> Prop :=
| trans_reuse d c client :
    remoteClients c !! resourceConnectionHash d = Some client ->
    active c (resourceConnectionHash d) < maxSessions c ->
    pool_trans (Acquire d) c (Acquired client)
      (set_active c (resourceConnectionHash d)
         (Go.wrap (active c (resourceConnectionHash d) + 1)))
| trans_wait d c client :
    remoteClients c !! resourceConnectionHash d = Some client ->
    maxSessions c <= active c (resourceConnectionHash d) ->
    pool_trans (Acquire d) c Waiting c
| trans_build d c client :
    remoteClients c !! resourceConnectionHash d = None ->
    pool_trans (Acquire d) c (Acquired client)
      (set_active (set_client c (resourceConnectionHash d) client)
         (resourceConnectionHash d) 1)
| trans_build_failed d c err :
    remoteClients c !! resourceConnectionHash d = None ->
    pool_trans (Acquire d) c (AcquireFailed err) c
| trans_release d c :
    Go.wrap (active c (resourceConnectionHash d) - 1) <> 0 ->
    pool_trans (Release d) c (Released None)
      (set_active c (resourceConnectionHash d)
         (Go.wrap (active c (resourceConnectionHash d) - 1)))
| trans_close d c client err :
    Go.wrap (active c (resourceConnectionHash d) - 1) = 0 ->
    remoteClients c !! resourceConnectionHash d = Some client ->
    pool_trans (Release d) c (Released err)
      (delete_client (set_active c (resourceConnectionHash d) 0)
         (resourceConnectionHash d))
| trans_close_nil d c :
    Go.wrap (active c (resourceConnectionHash d) - 1) = 0 ->
    remoteClients c !! resourceConnectionHash d = None ->
    pool_trans (Release d) c ReleasePanicked
      (delete_client (set_active c (resourceConnectionHash d) 0)
         (resourceConnectionHash d)).

Inductive pool_runs : list pool_call -> apiClient -> list outcome -> apiClient
    -> Prop :=
| runs_nil c : pool_runs [] c [] c
| runs_cons o calls c out c1 outs c2 :
    pool_trans o c out c1 ->
    pool_runs calls c1 outs c2 ->
    pool_runs (o :: calls) c (out :: outs) c2.

(** The state of identity [k] in a pool with ceiling [m] when callers hold [h]
    sessions of it: the counter is [h], between 0 and the ceiling (or 1, which
    the first acquisition always gives), and an entry is pooled exactly when
    [h] is not 0. *)
Definition sessions_ok (k : string) (m h : Z) (c : apiClient) : Prop :=
  maxSessions c = m /\
  active c k = h /\
  0 <= h <= Z.max 1 m /\
  (remoteClients c !! k = None <-> h = 0).

(** The states of a pool with ceiling [m] after at most [n] steps: a pooled
    identity has between 1 and the ceiling (or 1) sessions; an identity that
    is not pooled has none, or as many below zero as releases were made
    without an acquisition. *)
Definition pool_wf (m n : Z) (c : apiClient) : Prop :=
  maxSessions c = m /\
  forall k : string,
    match remoteClients c !! k with
    | Some _ => 1 <= active c k <= Z.max 1 m
    | None => - n <= active c k <= 0
    end.

(** A provider configured with [max_sessions = 0]. *)
Definition data_no_sessions : ResourceData :=
  {| conn := Some conn_root; proxy_conn := None; max_sessions := 0 |}.

(** A resource of the same provider as [data_direct], with privilege
    elevation and a timeout of its own. *)
Definition data_direct_sudo : ResourceData :=
  {| conn := Some {| host := "localhost"; port := 8022; timeout := 1000;
                     user := "root"; sudo := true; agent := false;
                     password := "password"; private_key := "";
                     private_key_path := ""; private_key_env_var := "" |};
     proxy_conn := None; max_sessions := 0 |}.

(** ** provider.go: the resource identifier *)

(** [setResourceID(d, conn)]: [path] is [d.Get("path")], [connData] the
    configuration that holds the connection; the result is the string given
    to [d.SetId]. *)
Definition setResourceID (path : string) (connData : ResourceData) : string :=
  let id :=
    Get "" (conn connData) host +:+ ":" +:+
    Go.Itoa (Get 0 (conn connData) port) +:+ ":" +:+ path in
  let proxy_host := resourceStringWithDefault (proxy_conn connData) host "" in
  let proxy_port := resourceIntWithDefault (proxy_conn connData) port "" in
  if negb (String.eqb proxy_host "") && negb (String.eqb proxy_port "")
  then proxy_host +:+ ":" +:+ proxy_port +:+ "|" +:+ id
  else id.

(** ** Vocabulary of the further properties *)

(** Whether [GetOk] reports a field as set. *)
Definition configured {A : Type} `{EqDecision A} (zero : A)
    (block : option Connection) (field : Connection -> A) : bool :=
  (GetOk zero block field).2.

(** The kinds of [ssh.AuthMethod], and the kinds that the credentials of a
    block call for, in the order in which [connFromResourceData] looks at
    them: password, inline key, key file, key in the environment, agent. *)
Inductive auth_kind : Type := ByPassword | ByPublicKeys | ByAgent.

Definition kind_of (m : AuthMethod) : auth_kind :=
  match m with
  | Password _ => ByPassword
  | PublicKeys _ => ByPublicKeys
  | PublicKeysCallback _ => ByAgent
  end.

Definition expected_auth (block : option Connection) : list auth_kind :=
  (if configured "" block password then [ByPassword] else []) ++
  (if configured "" block private_key then [ByPublicKeys] else []) ++
  (if configured "" block private_key_path then [ByPublicKeys] else []) ++
  (if configured "" block private_key_env_var then [ByPublicKeys] else []) ++
  (if Get false block agent then [ByAgent] else []).

(** Whether a call was answered with an error. *)
Definition failed_answer {A : Type} (r : result A) : bool :=
  match r with
  | Ok _ => false
  | Err _ => true
  end.

Definition event_failed (ev : event) : bool :=
  match ev with
  | Event e x =>
      match e in eff X return X -> bool with
      | ssh_Dial _ _ => failed_answer
      | Client_Dial _ _ => failed_answer
      | ssh_NewClientConn _ _ _ => failed_answer
      | Client_NewSession _ => failed_answer
      | Session_StdinPipe _ => failed_answer
      | scp_NewClientBySSH _ => failed_answer
      | sftp_NewClient _ => failed_answer
      | sftp_Open _ _ => failed_answer
      | ssh_ParsePrivateKey _ => failed_answer
      | ioutil_ReadFile _ => failed_answer
      | net_Dial_unix _ => failed_answer
      | _ => fun _ => false
      end x
  end.

(** The objects a file operation opens and closes: sessions, bulk-copy
    clients, file-transfer clients and remote files, by handle. *)
Inductive handle_kind : Type := ASession | AnSCP | AnSFTP | AFile.

Definition opened_by (ev : event) : option (handle_kind * nat) :=
  match ev with
  | Event (Client_NewSession _) (Ok s) => Some (ASession, s)
  | Event (scp_NewClientBySSH _) (Ok c) => Some (AnSCP, c)
  | Event (sftp_NewClient _) (Ok c) => Some (AnSFTP, c)
  | Event (sftp_Open _ _) (Ok f) => Some (AFile, f)
  | _ => None
  end.

Definition closed_by (ev : event) : option (handle_kind * nat) :=
  match ev with
  | Event (Session_Close s) _ => Some (ASession, s)
  | Event (scp_Close c) _ => Some (AnSCP, c)
  | Event (sftp_Close c) _ => Some (AnSFTP, c)
  | Event (File_Close f) _ => Some (AFile, f)
  | _ => None
  end.

Definition opened (tr : list event) : list (handle_kind * nat) :=
  omap opened_by tr.

Definition closed (tr : list event) : list (handle_kind * nat) :=
  omap closed_by tr.

(** A trace that closes what it opened, last opened first. *)
Definition balanced (tr : list event) : Prop :=
  closed tr = rev (opened tr).

(** Whether the newline byte occurs in [s]. *)
Fixpoint has_newline (s : string) : bool :=
  match s with
  | EmptyString => false
  | String a s' => Ascii.eqb a Go.nl || has_newline s'
  end.

(** Whether [s] ends with the newline byte. *)
Fixpoint ends_with_newline (s : string) : bool :=
  match s with
  | EmptyString => false
  | String a EmptyString => Ascii.eqb a Go.nl
  | String _ s' => ends_with_newline s'
  end.

(** [n] newline bytes. *)
Fixpoint newlines (n : nat) : string :=
  match n with
  | O => EmptyString
  | S n' => String Go.nl (newlines n')
  end.

(** The contents handed to the remote side in a trace: what is written to the
    standard input of a session and what is given to the bulk copy. *)
Definition delivered_by (ev : event) : option string :=
  match ev with
  | Event (Stdin_WriteClose _ content) _ => Some content
  | Event (scp_CopyFile _ content _ _) _ => Some content
  | _ => None
  end.

Definition delivered (tr : list event) : list string :=
  omap delivered_by tr.

(** An environment in which closing a client fails with [err] and everything
    else succeeds. *)
Definition close_fails (err : goerror) : answers := fun X e n =>
  match e in eff X return X with
  | Client_Close _ => Some err
  | e' => behave quiet _ e' n
  end.

Definition connection_lost : goerror := LibError "use of closed network connection".

(** ** What the plain operations do, call by call *)

(** A write without elevation: the bulk-copy client is asked for; refused,
    the refusal is returned; granted, the content is copied to the path with
    the permissions, the client is closed, and the answer of the copy is
    returned. *)
Definition plain_write (E : Env) (w : World E) (c : RemoteClient)
    (content path permissions : string) : Prop :=
  let p := WriteFile c content path permissions false in
  let open := scp_NewClientBySSH (sshClient c) in
  (exists err,
     trace_of E p w = [Event open (Err err)] /\
     result_of E p w = Some err) \/
  (exists scpClient answer,
     trace_of E p w =
       [Event open (Ok scpClient);
        Event (scp_CopyFile scpClient content path permissions) answer;
        Event (scp_Close scpClient) tt] /\
     result_of E p w = answer).

(** A read without elevation: the file-transfer client is asked for, the
    path is opened with it, the open file is read to its end, and file and
    client are closed; what was read is returned when the read succeeds, and
    the first error with the empty string otherwise. *)
Definition plain_read (E : Env) (w : World E) (c : RemoteClient)
    (path : string) : Prop :=
  let p := ReadFile c path false in
  let open := sftp_NewClient (sshClient c) in
  (exists err,
     trace_of E p w = [Event open (Err err)] /\
     result_of E p w = ("", Some err)) \/
  (exists sftpClient err,
     trace_of E p w =
       [Event open (Ok sftpClient);
        Event (sftp_Open sftpClient path) (Err err);
        Event (sftp_Close sftpClient) tt] /\
     result_of E p w = ("", Some err)) \/
  (exists sftpClient file content failure,
     trace_of E p w =
       [Event open (Ok sftpClient);
        Event (sftp_Open sftpClient path) (Ok file);
        Event (File_WriteTo file) (content, failure);
        Event (File_Close file) tt;
        Event (sftp_Close sftpClient) tt] /\
     result_of E p w =
       match failure with
       | Some err => ("", Some err)
       | None => (content, None)
       end).

(** A delete without elevation: the file-transfer client is asked for, the
    path is removed with it, the client is closed, and the answer of the
    removal is returned. *)
Definition plain_delete (E : Env) (w : World E) (c : RemoteClient)
    (path : string) : Prop :=
  let p := DeleteFile c path false in
  let open := sftp_NewClient (sshClient c) in
  (exists err,
     trace_of E p w = [Event open (Err err)] /\
     result_of E p w = Some err) \/
  (exists sftpClient answer,
     trace_of E p w =
       [Event open (Ok sftpClient);
        Event (sftp_Remove sftpClient path) answer;
        Event (sftp_Close sftpClient) tt] /\
     result_of E p w = answer).

(** ** Failing commands, by the answer of the environment *)




(** ** The cause of a failed stage *)





(** ** The calls of a configuration that could be built *)

(** The calls that [connFromResourceData] makes for the credentials of a
    block when all of them can be used, given what the environment answers:
    the signers of the inline key, of the key file and of the key in the
    environment, the content of the key file, the value of the environment
    variable, the agent socket and the connection to it. *)
Definition credential_calls (block : option Connection)
    (signer1 signer2 signer3 : ssh_Signer) (content value sock : string)
    (agentConn : net_Conn) : list event :=
  (if configured "" block private_key
   then [Event (ssh_ParsePrivateKey (Get "" block private_key)) (Ok signer1)]
   else []) ++
  (if configured "" block private_key_path
   then [Event (ioutil_ReadFile (Get "" block private_key_path)) (Ok content);
         Event (ssh_ParsePrivateKey content) (Ok signer2)]
   else []) ++
  (if configured "" block private_key_env_var
   then [Event (os_Getenv (Get "" block private_key_env_var)) value;
         Event (ssh_ParsePrivateKey value) (Ok signer3)]
   else []) ++
  (if Get false block agent
   then [Event (os_Getenv "SSH_AUTH_SOCK") sock;
         Event (net_Dial_unix sock) (Ok agentConn)]
   else []).

(** The authentication methods that go with them. *)
Definition credential_methods (block : option Connection)
    (signer1 signer2 signer3 : ssh_Signer) (agentConn : net_Conn)
    : list AuthMethod :=
  (if configured "" block password
   then [Password (Get "" block password)] else []) ++
  (if configured "" block private_key then [PublicKeys signer1] else []) ++
  (if configured "" block private_key_path then [PublicKeys signer2] else []) ++
  (if configured "" block private_key_env_var
   then [PublicKeys signer3] else []) ++
  (if Get false block agent then [PublicKeysCallback agentConn] else []).

(** * Properties *)

(** ** Running programs *)

Lemma exec_bind {A B : Type} (E : Env) (p : prog A) (f : A -> prog B)
    (w : World E) :
  exec E (p ≫= f) w =
    let '(a, w1, t1) := exec E p w in
    let '(b, w2, t2) := exec E (f a) w1 in
    (b, w2, t1 ++ t2).
Proof.
  unfold mbind, prog_bind.
  revert w. induction p as [a | X e k IH]; intros w.
  - cbn. destruct (exec E (f a) w) as [[b w2] t2]. reflexivity.
  - cbn. destruct (handle E X e w) as [x w1].
    rewrite (IH x w1).
    destruct (exec E (k x) w1) as [[a w2] t1].
    destruct (exec E (f a) w2) as [[b w3] t2]. reflexivity.
Qed.

(** Answer the next call of the program under execution. *)
Ltac next_call :=
  match goal with
  | |- context [handle ?E ?X ?e ?w] =>
      let x := fresh "x" in
      let w' := fresh "w" in
      let Hx := fresh "Hx" in
      destruct (handle E X e w) as [x w'] eqn:Hx; cbn
  end.

Ltac split_answer :=
  repeat match goal with
  | x : result _ |- _ => destruct x
  | x : (_ * _)%type |- _ => destruct x
  | x : option goerror |- _ => destruct x
  | x : unit |- _ => destruct x
  end; cbn.

Ltac all_calls := repeat (next_call; split_answer).

(** ** Elevation routing *)

Section Routing.
Context (E : Env) (w : World E) (c : RemoteClient).

Ltac routing :=
  unfold routed, only_transport, route, trace_of, session_granted,
    stdin_granted, scp_granted, elevated, run, defer; cbn;
  all_calls; repeat split; try discriminate; repeat constructor.

Lemma ChmodFile_routed path permissions sudo :
  let tr := trace_of E (ChmodFile c path permissions sudo) w in
  routed Shell tr /\
  commands tr =
    if session_granted E c w
    then [elevated sudo ("chmod " +:+ permissions +:+ " " +:+ path)]
    else [].
Proof. unfold ChmodFile. destruct sudo; routing. Qed.

Lemma ChownFile_routed path owner sudo :
  let tr := trace_of E (ChownFile c path owner sudo) w in
  routed Shell tr /\
  commands tr =
    if session_granted E c w
    then [elevated sudo ("chown " +:+ owner +:+ " " +:+ path)]
    else [].
Proof. unfold ChownFile. destruct sudo; routing. Qed.

Lemma ChgrpFile_routed path group sudo :
  let tr := trace_of E (ChgrpFile c path group sudo) w in
  routed Shell tr /\
  commands tr =
    if session_granted E c w
    then [elevated sudo ("chgrp " +:+ group +:+ " " +:+ path)]
    else [].
Proof. unfold ChgrpFile. destruct sudo; routing. Qed.

Lemma WriteFile_routed content path permissions sudo :
  let tr := trace_of E (WriteFile c content path permissions sudo) w in
  routed (route sudo BulkCopy) tr /\
  commands tr =
    if sudo && stdin_granted E c w
    then ["cat /dev/stdin | sudo tee " +:+ path]
    else [].
Proof.
  unfold WriteFile, WriteFileShell, WriteFileSCP, GetSCPClient.
  destruct sudo; routing.
Qed.

Lemma ReadFile_routed path sudo :
  let tr := trace_of E (ReadFile c path sudo) w in
  routed (route sudo NativeTransfer) tr /\
  commands tr =
    if sudo && session_granted E c w then ["sudo cat " +:+ path] else [].
Proof.
  unfold ReadFile, ReadFileShell, ReadFileSFTP, GetSFTPClient.
  destruct sudo; routing.
Qed.

Lemma DeleteFile_routed path sudo :
  let tr := trace_of E (DeleteFile c path sudo) w in
  routed (route sudo NativeTransfer) tr /\
  commands tr =
    if sudo && session_granted E c w then ["sudo rm " +:+ path] else [].
Proof.
  unfold DeleteFile, DeleteFileShell, DeleteFileSFTP, GetSFTPClient.
  destruct sudo; routing.
Qed.

End Routing.

Lemma sudo_prefixed_elevated (sudo : bool) (cmd : string) :
  sudo_prefixed cmd = false -> sudo_prefixed (elevated sudo cmd) = sudo.
Proof.
  intros H. destruct sudo; [| exact H].
  unfold sudo_prefixed, elevated. cbn. destruct cmd; reflexivity.
Qed.

Lemma WriteFile_plain (E : Env) (w : World E) (c : RemoteClient)
    (content path permissions : string) :
  plain_write E w c content path permissions.
Proof.
  unfold plain_write, WriteFile, WriteFileSCP, GetSCPClient, trace_of,
    result_of, defer. cbn.
  next_call. destruct x as [scpClient | err]; cbn.
  - right. next_call. next_call. destruct x0. eauto.
  - left. eauto.
Qed.

Lemma ReadFile_plain (E : Env) (w : World E) (c : RemoteClient)
    (path : string) :
  plain_read E w c path.
Proof.
  unfold plain_read, ReadFile, ReadFileSFTP, GetSFTPClient, trace_of,
    result_of, defer. cbn.
  next_call. destruct x as [sftpClient | err]; cbn; [| left; eauto].
  right. next_call. destruct x as [file | err]; cbn.
  - right. next_call. destruct x as [content failure]. cbn.
    destruct failure as [err |]; cbn;
      next_call; destruct x; next_call; destruct x; eauto 7.
  - left. next_call. destruct x. eauto.
Qed.

Lemma DeleteFile_plain (E : Env) (w : World E) (c : RemoteClient)
    (path : string) :
  plain_delete E w c path.
Proof.
  unfold plain_delete, DeleteFile, DeleteFileSFTP, GetSFTPClient, trace_of,
    result_of, defer. cbn.
  next_call. destruct x as [sftpClient | err]; cbn.
  - right. next_call. next_call. destruct x0. eauto.
  - left. eauto.
Qed.

(** C4.  For every path, content, permissions, owner, group and elevation flag,
    and whatever the remote side answers: [ChmodFile], [ChownFile] and
    [ChgrpFile] use the shell transport only and, the session granted, run
    exactly one command, which starts with [sudo] exactly when elevation is
    requested; [WriteFile], [ReadFile] and [DeleteFile] use the shell only when
    the flag is set, and otherwise only the bulk copy (write) or the native
    transfer (read, delete), running no command at all.  Without the flag the
    write is one bulk copy of the content to the path with the permissions,
    the read one open of the path followed by one read of the open file, the
    delete one removal of the path, each returning what that call answered. *)
Theorem elevation_routing (E : Env) (w : World E) (c : RemoteClient)
    (content path permissions owner group : string) (sudo : bool) :
  let chmod := "chmod " +:+ permissions +:+ " " +:+ path in
  let chown := "chown " +:+ owner +:+ " " +:+ path in
  let chgrp := "chgrp " +:+ group +:+ " " +:+ path in
  let granted := session_granted E c w in
  (routed Shell (trace_of E (ChmodFile c path permissions sudo) w) /\
   commands (trace_of E (ChmodFile c path permissions sudo) w) =
     (if granted then [elevated sudo chmod] else []) /\
   sudo_prefixed (elevated sudo chmod) = sudo) /\
  (routed Shell (trace_of E (ChownFile c path owner sudo) w) /\
   commands (trace_of E (ChownFile c path owner sudo) w) =
     (if granted then [elevated sudo chown] else []) /\
   sudo_prefixed (elevated sudo chown) = sudo) /\
  (routed Shell (trace_of E (ChgrpFile c path group sudo) w) /\
   commands (trace_of E (ChgrpFile c path group sudo) w) =
     (if granted then [elevated sudo chgrp] else []) /\
   sudo_prefixed (elevated sudo chgrp) = sudo) /\
  (routed (route sudo BulkCopy)
     (trace_of E (WriteFile c content path permissions sudo) w) /\
   commands (trace_of E (WriteFile c content path permissions sudo) w) =
     (if sudo && stdin_granted E c w
      then ["cat /dev/stdin | sudo tee " +:+ path] else [])) /\
  (routed (route sudo NativeTransfer) (trace_of E (ReadFile c path sudo) w) /\
   commands (trace_of E (ReadFile c path sudo) w) =
     (if sudo && granted then ["sudo cat " +:+ path] else [])) /\
  (routed (route sudo NativeTransfer) (trace_of E (DeleteFile c path sudo) w) /\
   commands (trace_of E (DeleteFile c path sudo) w) =
     (if sudo && granted then ["sudo rm " +:+ path] else [])) /\
  plain_write E w c content path permissions /\
  plain_read E w c path /\
  plain_delete E w c path.
Proof.
  intros chmod chown chgrp granted.
  pose proof (ChmodFile_routed E w c path permissions sudo) as [H1 H1'].
  pose proof (ChownFile_routed E w c path owner sudo) as [H2 H2'].
  pose proof (ChgrpFile_routed E w c path group sudo) as [H3 H3'].
  pose proof (WriteFile_routed E w c content path permissions sudo) as H4.
  pose proof (ReadFile_routed E w c path sudo) as H5.
  pose proof (DeleteFile_routed E w c path sudo) as H6.
  pose proof (WriteFile_plain E w c content path permissions) as H7.
  pose proof (ReadFile_plain E w c path) as H8.
  pose proof (DeleteFile_plain E w c path) as H9.
  refine (conj (conj H1 (conj H1' _)) (conj (conj H2 (conj H2' _))
            (conj (conj H3 (conj H3' _))
               (conj H4 (conj H5 (conj H6 (conj H7 (conj H8 H9))))))));
    apply sudo_prefixed_elevated; reflexivity.
Qed.

(** ** Elevated writes and the permissions argument *)

(** C10.  With the elevation flag set, [WriteFile] behaves the same for any
    two permissions values: same result, same calls, same final state of the
    remote side.  It copies nothing by bulk copy and, session and standard
    input granted, runs exactly [cat /dev/stdin | sudo tee <path>].  Without
    the flag, the permissions are handed to the bulk copy as given. *)
Theorem WriteFile_elevated_ignores_permissions (E : Env) (w : World E)
    (c : RemoteClient) (content path permissions permissions' : string) :
  exec E (WriteFile c content path permissions true) w =
    exec E (WriteFile c content path permissions' true) w /\
  commands (trace_of E (WriteFile c content path permissions true) w) =
    (if stdin_granted E c w
     then ["cat /dev/stdin | sudo tee " +:+ path] else []) /\
  copies (trace_of E (WriteFile c content path permissions true) w) = [] /\
  copies (trace_of E (WriteFile c content path permissions false) w) =
    (if scp_granted E c w then [(content, path, permissions)] else []).
Proof.
  split; [reflexivity |].
  split; [apply (WriteFile_routed E w c content path permissions true) |].
  unfold WriteFile, WriteFileShell, WriteFileSCP, GetSCPClient, trace_of,
    scp_granted, run, defer; cbn.
  split; all_calls; reflexivity.
Qed.

(** ** Existence probes *)

(** C6.  The session granted, [FileExists] runs [test -f <path>], with the
    [sudo] prefix when elevation is requested.  When that command succeeds the
    answer is [true] without an error and nothing else is run.  When it fails
    and the second session is granted, [test ! -f <path>] is run with the same
    prefix and the answer is [false] together with whatever the second command
    returned: no error when it succeeds, its error when it fails too. *)
Theorem FileExists_probes (E : Env) (c : RemoteClient) (path : string)
    (sudo : bool) (w w1 w2 : World E) (session : ssh_Session)
    (stderr : string) (failure : option goerror) :
  let probe := elevated sudo ("test -f " +:+ path) in
  let confirm := elevated sudo ("test ! -f " +:+ path) in
  let p := FileExists c path sudo in
  handle E _ (Client_NewSession (GetSSHClient c)) w = (Ok session, w1) ->
  handle E _ (Session_Run session probe) w1 = ((stderr, failure), w2) ->
  (failure = None ->
     result_of E p w = (true, None) /\ commands (trace_of E p w) = [probe]) /\
  (forall (session2 : ssh_Session) (w3 w4 : World E) (stderr2 : string)
      (failure2 : option goerror),
     failure <> None ->
     handle E _ (Client_NewSession (GetSSHClient c)) w2 = (Ok session2, w3) ->
     handle E _ (Session_Run session2 confirm) w3 =
       ((stderr2, failure2), w4) ->
     result_of E p w = (false, failure2) /\
     commands (trace_of E p w) = [probe; confirm]).
Proof.
  intros probe confirm p Hs Hr. subst probe confirm p.
  unfold result_of, trace_of, FileExists, run, defer, elevated in *. cbn.
  rewrite Hs. cbn.
  split.
  - intros ->. destruct sudo; rewrite Hr; cbn; all_calls; split; reflexivity.
  - intros session2 w3 w4 stderr2 failure2 Hf Hs2 Hr2.
    destruct failure as [err |]; [| congruence].
    destruct sudo; rewrite Hr; cbn; rewrite Hs2; cbn; rewrite Hr2; cbn;
      all_calls; split; reflexivity.
Qed.

Lemma FileExists_probes_witness :
  let E := counting (behave (file_missing "/x")) in
  handle E _ (Client_NewSession (GetSSHClient client7)) 0%nat = (Ok 0%nat, 1%nat) /\
  handle E _ (Session_Run 0%nat "test -f /x") 1%nat =
    (("", Some exit_status_1), 2%nat) /\
  result_of E (FileExists client7 "/x" false) 0%nat = (false, None) /\
  commands (trace_of E (FileExists client7 "/x" false) 0%nat) =
    ["test -f /x"; "test ! -f /x"].
Proof.
  split; [reflexivity |]. split; [reflexivity |].
  apply (proj2 (FileExists_probes (counting (behave (file_missing "/x")))
                  client7 "/x" false 0%nat 1%nat 2%nat 0%nat ""
                  (Some exit_status_1) eq_refl eq_refl)
               2%nat 3%nat 4%nat "" None).
  - discriminate.
  - reflexivity.
  - reflexivity.
Defined.

(** A file that is there; and a host on which both probes fail. *)
Example FileExists_present :
  exec (counting (behave quiet)) (FileExists client7 "/x" true) 0%nat =
    ((true, None), 3%nat,
     [Event (Client_NewSession 7%nat) (Ok 0%nat);
      Event (Session_Run 0%nat "sudo test -f /x") ("", None);
      Event (Session_Close 0%nat) tt]).
Proof. reflexivity. Qed.

Example FileExists_both_probes_fail :
  let E := counting (behave (failing "Permission denied" exit_status_1)) in
  result_of E (FileExists client7 "/x" false) 0%nat =
    (false, Some exit_status_1) /\
  commands (trace_of E (FileExists client7 "/x" false) 0%nat) =
    ["test -f /x"; "test ! -f /x"].
Proof. split; reflexivity. Qed.

(** ** Failures of shell commands *)

Section Failures.
Context (E : Env) (w : World E) (c : RemoteClient).










End Failures.

Section FailingAnswers.
Context (E : Env) (w : World E) (c : RemoteClient).










End FailingAnswers.




(** ** Permissions read back *)

(** What [ReadFilePermissions] returns when the session is granted and the
    [stat] command prints [output]: the output without its newlines, with one
    ["0"] in front when that leaves one to three bytes. *)
Lemma ReadFilePermissions_result (E : Env) (c : RemoteClient) (path : string)
    (sudo : bool) (w w1 w2 : World E) (session : ssh_Session)
    (output : string) :
  handle E _ (Client_NewSession (GetSSHClient c)) w = (Ok session, w1) ->
  handle E _ (Session_Output session (elevated sudo ("stat -c %a " +:+ path)))
    w1 = ((output, None), w2) ->
  result_of E (ReadFilePermissions c path sudo) w =
    (let permissions := Go.ReplaceAll output Go.NL "" in
     if ((0 <? Go.len permissions) && (Go.len permissions <? 4))%Z
     then "0" +:+ permissions else permissions,
     None).
Proof.
  intros Hs Ho.
  unfold result_of, ReadFilePermissions, defer, elevated in *. cbn.
  rewrite Hs. cbn.
  destruct sudo; rewrite Ho; cbn; all_calls; reflexivity.
Qed.

(** Three bytes of output become four. *)
Lemma ReadFilePermissions_three_digits (E : Env) (c : RemoteClient)
    (path : string) (sudo : bool) (w w1 w2 : World E) (session : ssh_Session)
    (output : string) :
  handle E _ (Client_NewSession (GetSSHClient c)) w = (Ok session, w1) ->
  handle E _ (Session_Output session (elevated sudo ("stat -c %a " +:+ path)))
    w1 = ((output, None), w2) ->
  Go.len (Go.ReplaceAll output Go.NL "") = 3 ->
  Go.len (result_of E (ReadFilePermissions c path sudo) w).1 = 4.
Proof.
  intros Hs Ho Hlen.
  rewrite (ReadFilePermissions_result E c path sudo w w1 w2 session output Hs Ho).
  cbn -[Go.ReplaceAll Go.len]. rewrite Hlen. cbn -[Go.ReplaceAll Go.len].
  unfold Go.len in *.
  change (String.length ("0" +:+ Go.ReplaceAll output Go.NL ""))
    with (S (String.length (Go.ReplaceAll output Go.NL ""))).
  lia.
Qed.

(** C7.  [ReadFilePermissions] runs [stat -c %a <path>] and drops the newline.
    Output [644] is reported as [0644] and output [1755] unchanged; but the
    output [7] of a file of mode 0007 is reported as [07] and the output [55]
    as [055]: one zero is put in front, the result is not brought to four
    digits. *)
Theorem ReadFilePermissions_prepends_one_zero :
  let read (output : string) :=
    exec (counting (behave (printing (output +:+ Go.NL))))
      (ReadFilePermissions client7 "/x" false) 0%nat in
  commands (read "644").2 = ["stat -c %a /x"] /\
  (read "644").1.1 = ("0644", None) /\
  (read "1755").1.1 = ("1755", None) /\
  (read "7").1.1 = ("07", None) /\
  (read "55").1.1 = ("055", None).
Proof. repeat split; reflexivity. Qed.

(** ** Connecting through a proxy *)





(** The message put in front of the cause is the same for the dial of the
    proxy and for the tunnel, and names no stage: a cause with the same text
    at both stages, if the library ever gave one, would end in the same
    error. *)
Lemma proxy_failure_like_target_failure :
  let p := NewRemoteProxyClient "target:22" config_root "proxy:22" config_root in
  let E1 := counting (behave (unreachable "proxy:22" connection_refused)) in
  let E2 := counting (behave (tunnel_refused "target:22" connection_refused)) in
  failed_stage (trace_of E1 p 0%nat) = Some ProxyDial /\
  failed_stage (trace_of E2 p 0%nat) = Some Tunnel /\
  result_of E1 p 0%nat = result_of E2 p 0%nat.
Proof. repeat split; reflexivity. Qed.

(** A handshake that fails comes back as it is, and the stages before it
    have run. *)
Example handshake_failure_unwrapped :
  let p := NewRemoteProxyClient "target:22" config_root "proxy:22" config_root in
  let E := counting (behave (handshake_refused "target:22" connection_refused)) in
  exec E p 0%nat =
    (Err connection_refused, 3%nat,
     [Event (ssh_Dial "proxy:22" config_root) (Ok 0%nat);
      Event (Client_Dial 0%nat "target:22") (Ok 1%nat);
      Event (ssh_NewClientConn 1%nat "target:22" config_root)
        (Err connection_refused)]).
Proof. reflexivity. Qed.

(** ** The connection identity *)

Lemma separable_tail (a : ascii) (s : string) :
  separable (String a s) = true -> separable s = true.
Proof.
  cbn. destruct (Ascii.eqb a ":"); [| tauto].
  destruct s as [| b s']; [discriminate |].
  intros H. apply andb_prop in H. tauto.
Qed.

Lemma colon_free_separable (s : string) :
  colon_free s = true -> separable s = true.
Proof.
  induction s as [| a s IH]; [reflexivity |].
  cbn. destruct (Ascii.eqb a ":"); [discriminate |]. exact IH.
Qed.

Lemma append_nil (s : string) : "" +:+ s = s.
Proof. reflexivity. Qed.

Lemma append_cons (a : ascii) (s t : string) :
  String a s +:+ t = String a (s +:+ t).
Proof. reflexivity. Qed.

(** A separable field followed by the separator cannot be read in two ways. *)
Lemma separable_split (s1 s2 t1 t2 : string) :
  separable s1 = true -> separable s2 = true ->
  s1 +:+ "::" +:+ t1 = s2 +:+ "::" +:+ t2 ->
  s1 = s2 /\ t1 = t2.
Proof.
  revert s2. induction s1 as [| a s1 IH]; intros s2 H1 H2 Heq.
  - destruct s2 as [| b s2]; rewrite ?append_cons, ?append_nil in Heq.
    + injection Heq as ->. tauto.
    + exfalso. injection Heq as <- Heq.
      destruct s2 as [| b' s2]; [discriminate H2 |].
      rewrite ?append_cons in Heq. injection Heq as <- _. discriminate H2.
  - destruct s2 as [| b s2]; rewrite ?append_cons, ?append_nil in Heq.
    + exfalso. injection Heq as -> Heq.
      destruct s1 as [| a' s1]; [discriminate H1 |].
      rewrite ?append_cons in Heq. injection Heq as -> _. discriminate H1.
    + injection Heq as -> Heq.
      destruct (IH s2 (separable_tail _ _ H1) (separable_tail _ _ H2) Heq)
        as [-> ->].
      tauto.
Qed.

Lemma uint_colon_free (d : Decimal.uint) :
  colon_free (NilEmpty.string_of_uint d) = true.
Proof. induction d; cbn; auto. Qed.

Lemma Itoa_colon_free (z : Z) : colon_free (Go.Itoa z) = true.
Proof.
  unfold Go.Itoa. destruct (Z.to_int z) as [d | d]; cbn.
  - destruct d; cbn; auto using uint_colon_free.
  - destruct d; cbn; auto using uint_colon_free.
Qed.

Lemma Itoa_inj (a b : Z) : Go.Itoa a = Go.Itoa b -> a = b.
Proof.
  unfold Go.Itoa. intros H.
  assert (Hn : forall z, Z.to_int z <> Decimal.Pos Decimal.Nil /\
                         Z.to_int z <> Decimal.Neg Decimal.Nil).
  { intros [| p | p]; cbn; split; try discriminate;
      intros [= Hp]; exact (Unsigned.to_uint_nonnil p Hp). }
  apply DecimalZ.to_int_inj.
  destruct (Hn a) as [Ha Ha'], (Hn b) as [Hb Hb'].
  pose proof (NilZero.isi _ Ha Ha') as Ia.
  pose proof (NilZero.isi _ Hb Hb') as Ib.
  rewrite H in Ia. congruence.
Qed.

Lemma Itoa_nonempty (z : Z) : Go.Itoa z <> "".
Proof.
  unfold Go.Itoa. destruct (Z.to_int z) as [d | d]; cbn; [| discriminate].
  destruct d; cbn; discriminate.
Qed.

Lemma FormatBool_inj (a b : bool) : Go.FormatBool a = Go.FormatBool b -> a = b.
Proof. destruct a, b; cbn; congruence. Qed.

(** The three ways of reading a field with the empty default. *)
Lemma resourceStringWithDefault_Get (block : option Connection)
    (key : Connection -> string) :
  resourceStringWithDefault block key "" = Get "" block key.
Proof.
  unfold resourceStringWithDefault, GetOk.
  destruct (bool_decide_reflect (Get "" block key = "")) as [-> | _];
    reflexivity.
Qed.

Lemma resourceIntWithDefault_inj (b1 b2 : option Connection)
    (key : Connection -> Z) :
  resourceIntWithDefault b1 key "" = resourceIntWithDefault b2 key "" ->
  Get 0 b1 key = Get 0 b2 key.
Proof.
  unfold resourceIntWithDefault, GetOk.
  destruct (bool_decide_reflect (Get 0 b1 key = 0)) as [-> | _],
           (bool_decide_reflect (Get 0 b2 key = 0)) as [-> | _]; cbn.
  - reflexivity.
  - intros H. symmetry in H. destruct (Itoa_nonempty _ H).
  - intros H. destruct (Itoa_nonempty _ H).
  - apply Itoa_inj.
Qed.

Lemma resourceIntWithDefault_separable (b : option Connection)
    (key : Connection -> Z) :
  separable (resourceIntWithDefault b key "") = true.
Proof.
  unfold resourceIntWithDefault, GetOk.
  destruct (negb _); [| reflexivity].
  apply colon_free_separable, Itoa_colon_free.
Qed.

Lemma resourceBoolWithDefault_inj (b1 b2 : option Connection)
    (key : Connection -> bool) :
  resourceBoolWithDefault b1 key "" = resourceBoolWithDefault b2 key "" ->
  Get false b1 key = Get false b2 key.
Proof.
  unfold resourceBoolWithDefault, GetOk.
  destruct (Get false b1 key), (Get false b2 key); vm_compute; congruence.
Qed.

Lemma block_separable_fields (block : option Connection) :
  block_separable block = true ->
  separable (Get "" block host) = true /\
  separable (Get "" block user) = true /\
  separable (Get "" block password) = true /\
  separable (Get "" block private_key) = true /\
  separable (Get "" block private_key_path) = true.
Proof.
  unfold block_separable. intros H.
  repeat (apply andb_prop in H; destruct H as [H ?]). tauto.
Qed.

Lemma FormatBool_separable (b : bool) : separable (Go.FormatBool b) = true.
Proof. destruct b; reflexivity. Qed.

(** X9.  What the identity does tell apart.  For configurations whose host, user, password,
    private key and key path (of the connection and of the proxy) neither
    contain ["::"] nor end with [':'], and that name the same key environment
    variable, the identities are equal exactly when every identity-relevant
    field is pairwise equal. *)
Theorem identity_iff_fields (d1 d2 : ResourceData) :
  data_separable d1 = true ->
  data_separable d2 = true ->
  Get "" (conn d1) private_key_env_var = Get "" (conn d2) private_key_env_var ->
  Get "" (proxy_conn d1) private_key_env_var =
    Get "" (proxy_conn d2) private_key_env_var ->
  resourceConnectionHash d1 = resourceConnectionHash d2 <-> identity_equal d1 d2.
Proof.
  intros S1 S2 Ec Ep.
  unfold data_separable in S1, S2.
  apply andb_prop in S1. destruct S1 as [C1 P1].
  apply andb_prop in S2. destruct S2 as [C2 P2].
  apply block_separable_fields in C1, P1, C2, P2.
  destruct C1 as (? & ? & ? & ? & ?), P1 as (? & ? & ? & ? & ?),
           C2 as (? & ? & ? & ? & ?), P2 as (? & ? & ? & ? & ?).
  unfold resourceConnectionHash, hash_elements, Go.Join, identity_equal,
    identity_fields.
  rewrite !resourceStringWithDefault_Get.
  cbn [String.concat].
  split.
  - intros Heq.
    repeat match type of Heq with
    | _ +:+ "::" +:+ _ = _ +:+ "::" +:+ _ =>
        apply separable_split in Heq;
          [ let H := fresh "F" in destruct Heq as [H Heq]
          | first [ assumption
                  | apply colon_free_separable, Itoa_colon_free
                  | apply FormatBool_separable
                  | apply resourceIntWithDefault_separable ] .. ]
    end.
    apply Itoa_inj in F1. apply FormatBool_inj in F5.
    apply resourceIntWithDefault_inj in F8.
    apply resourceBoolWithDefault_inj in Heq.
    split; congruence.
  - intros [Hc Hp].
    injection Hc as ? ? ? ? ? ? ? ?. injection Hp as ? ? ? ? ? ? ? ?.
    unfold resourceIntWithDefault, resourceBoolWithDefault, GetOk.
    repeat match goal with
    | Hf : Get _ (_ d1) _ = Get _ (_ d2) _ |- _ => rewrite ?Hf; clear Hf
    end.
    reflexivity.
Qed.

Lemma identity_iff_fields_witness :
  data_separable data_direct = true /\
  data_separable data_proxied = true /\
  (resourceConnectionHash data_direct = resourceConnectionHash data_proxied <->
   identity_equal data_direct data_proxied).
Proof.
  split; [reflexivity |]. split; [reflexivity |].
  apply (identity_iff_fields data_direct data_proxied);
    [vm_compute; reflexivity .. | reflexivity | reflexivity].
Defined.

(** Without the restriction on the fields the separator is ambiguous: a
    configuration with password [:] and one with key path [:] have the same
    identity. *)
Lemma identity_separator_collision :
  resourceConnectionHash (data_secret ":" "") =
    resourceConnectionHash (data_secret "" ":") /\
  ~ identity_equal (data_secret ":" "") (data_secret "" ":").
Proof. split; [reflexivity |]. intros [H _]; discriminate H. Qed.

(** C2.  The identity does not depend on [private_key_env_var]: whatever the
    rest of the configuration, changing the name of the environment variable
    that holds the key leaves the identity as it is.  So two configurations
    that authenticate with the keys of [KEY_A] and of [KEY_B] differ in an
    identity-relevant field and have the same identity. *)
Theorem identity_ignores_key_env_var :
  (forall (b : Connection) (proxy : option Connection) (m : Z)
      (var var' : string),
     resourceConnectionHash
       {| conn := Some (set_private_key_env_var b var);
          proxy_conn := proxy; max_sessions := m |} =
     resourceConnectionHash
       {| conn := Some (set_private_key_env_var b var');
          proxy_conn := proxy; max_sessions := m |}) /\
  resourceConnectionHash (data_env "KEY_A") =
    resourceConnectionHash (data_env "KEY_B") /\
  ~ identity_equal (data_env "KEY_A") (data_env "KEY_B").
Proof.
  split; [reflexivity |]. split; [reflexivity |].
  intros [H _]; discriminate H.
Qed.

(** ** The session pool *)

Lemma wrap_id (z : Z) : Go.in_int z -> Go.wrap z = z.
Proof.
  unfold Go.in_int, Go.wrap, Go.min_int, Go.max_int, Go.int_bits.
  intros H. rewrite Z.mod_small; lia.
Qed.

Lemma active_set_active (c : apiClient) (k k' : string) (n : Z) :
  active (set_active c k n) k' = if decide (k = k') then n else active c k'.
Proof.
  unfold active, set_active; cbn. rewrite lookup_insert.
  destruct (decide (k = k')); reflexivity.
Qed.

Lemma active_set_client (c : apiClient) (k k' : string) (client : RemoteClient) :
  active (set_client c k client) k' = active c k'.
Proof. reflexivity. Qed.

Lemma active_delete_client (c : apiClient) (k k' : string) :
  active (delete_client c k) k' = active c k'.
Proof. reflexivity. Qed.

Lemma active_configure (d : ResourceData) (k : string) :
  active (configure d) k = 0.
Proof. reflexivity. Qed.

(** Every step of the code is a transition of the state machine. *)
Lemma exec_pool_step (E : Env) (o : pool_call) (c c' : apiClient)
    (w w' : World E) (out : outcome) (tr : list event) :
  exec E (pool_step o c) w = ((out, c'), w', tr) -> pool_trans o c out c'.
Proof.
  destruct o as [d | d]; unfold pool_step.
  - unfold getRemoteClient_iteration.
    destruct (remoteClients c !! resourceConnectionHash d) as [client |] eqn:Hc.
    + destruct (Z.leb_spec (maxSessions c) (active c (resourceConnectionHash d)));
        cbn; intros [= <- <- <- <-].
      * eapply trans_wait; eassumption.
      * apply trans_reuse; assumption.
    + rewrite !exec_bind.
      destruct (exec E (remoteClientFromResourceData d) w) as [[r w1] t1].
      destruct r as [client | err]; cbn; intros [= <- <- <- <-].
      * apply trans_build; assumption.
      * apply trans_build_failed; assumption.
  - unfold closeRemoteClient.
    rewrite active_set_active. destruct (decide _); [| congruence].
    destruct (Z.eqb_spec (Go.wrap (active c (resourceConnectionHash d) - 1)) 0)
      as [Hz | Hz].
    + rewrite Hz.
      change (remoteClients (set_active c (resourceConnectionHash d) 0))
        with (remoteClients c).
      destruct (remoteClients c !! resourceConnectionHash d) as [client |] eqn:Hc.
      * unfold Close; cbn.
        destruct (handle E _ _ w) as [err w1]; cbn. intros [= <- <- <- <-].
        eapply trans_close; eassumption.
      * cbn. intros [= <- <- <- <-]. apply trans_close_nil; assumption.
    + cbn. intros [= <- <- <- <-]. apply trans_release; assumption.
Qed.

Lemma exec_pool_run (E : Env) (calls : list pool_call) (c c' : apiClient)
    (w w' : World E) (outs : list outcome) (tr : list event) :
  exec E (pool_run calls c) w = ((outs, c'), w', tr) -> pool_runs calls c outs c'.
Proof.
  revert c w outs tr. induction calls as [| o calls IH]; intros c w outs tr.
  - cbn. intros [= <- <- <- <-]. constructor.
  - cbn [pool_run]. rewrite exec_bind.
    destruct (exec E (pool_step o c) w) as [[[out c1] w1] t1] eqn:Hstep.
    rewrite exec_bind.
    destruct (exec E (pool_run calls c1) w1) as [[[outs1 c2] w2] t2] eqn:Hrun.
    cbn. intros [= <- <- <- <-].
    econstructor; [eapply exec_pool_step | eapply IH]; eassumption.
Qed.

Lemma max_int_value : Go.max_int = 9223372036854775807.
Proof. reflexivity. Qed.

Lemma min_int_value : Go.min_int = -9223372036854775808.
Proof. reflexivity. Qed.

Ltac pool_simpl :=
  repeat first
    [ rewrite active_set_active
    | rewrite active_set_client
    | rewrite active_delete_client ];
  cbn [remoteClients maxSessions set_active set_client delete_client].

(** A step on another identity leaves the counter and the entry of [k]. *)
Lemma pool_trans_other (k : string) (o : pool_call) (c c' : apiClient)
    (out : outcome) :
  pool_trans o c out c' ->
  call_identity o <> k ->
  maxSessions c' = maxSessions c /\
  active c' k = active c k /\
  remoteClients c' !! k = remoteClients c !! k.
Proof.
  intros T Hk. destruct T; cbn [call_identity] in Hk; pool_simpl;
    repeat (destruct (decide _); [congruence |]);
    rewrite ?lookup_insert_ne, ?lookup_delete_ne by assumption; tauto.
Qed.

Lemma pool_trans_sessions_ok (k : string) (m h : Z) (o : pool_call)
    (c c' : apiClient) (out : outcome) :
  pool_trans o c out c' ->
  m <= Go.max_int ->
  sessions_ok k m h c ->
  paired k h [o] [out] = true ->
  sessions_ok k m (held k h [o] [out]) c'.
Proof.
  intros T Hm (Hmax & Hact & Hh & Hentry) Hp.
  pose proof max_int_value as Hmi.
  cbn [paired held] in *.
  destruct (String.eqb_spec (call_identity o) k) as [Hk | Hk].
  - destruct T; cbn [call_identity] in Hk; subst k.
    + (* reuse *)
      rewrite Hact in *. rewrite wrap_id by (unfold Go.in_int; rewrite min_int_value; lia).
      unfold sessions_ok; pool_simpl. destruct (decide _); [| congruence].
      repeat split; try lia.
      * intros Hn. rewrite Hn in Hentry. congruence.
    + (* wait *)
      unfold sessions_ok. tauto.
    + (* build *)
      unfold sessions_ok; pool_simpl. destruct (decide _); [| congruence].
      assert (h = 0) by tauto. subst h.
      rewrite lookup_insert_eq. repeat split; try lia; try congruence.
    + (* the builder failed *)
      unfold sessions_ok. tauto.
    + (* release, sessions left *)
      apply andb_prop in Hp. destruct Hp as [Hp _]. apply Z.leb_le in Hp.
      rewrite Hact in *.
      rewrite wrap_id in * by (unfold Go.in_int; rewrite min_int_value; lia).
      unfold sessions_ok; pool_simpl. destruct (decide _); [| congruence].
      repeat split; try lia.
      * intros Hn. apply Hentry in Hn. lia.
    + (* release, last session *)
      apply andb_prop in Hp. destruct Hp as [Hp _]. apply Z.leb_le in Hp.
      rewrite Hact in *.
      rewrite wrap_id in * by (unfold Go.in_int; rewrite min_int_value; lia).
      unfold sessions_ok; pool_simpl. destruct (decide _); [| congruence].
      rewrite lookup_delete_eq. repeat split; try lia.
    + apply andb_prop in Hp. destruct Hp as [Hp _]. apply Z.leb_le in Hp.
      rewrite Hact in *.
      rewrite wrap_id in * by (unfold Go.in_int; rewrite min_int_value; lia).
      unfold sessions_ok; pool_simpl. destruct (decide _); [| congruence].
      rewrite lookup_delete_eq. repeat split; try lia.
  - destruct (pool_trans_other k o c c' out T Hk) as (E1 & E2 & E3).
    unfold sessions_ok. rewrite E1, E2, E3.
    destruct o, out; cbn; auto.
Qed.

Lemma held_cons (k : string) (h : Z) (o : pool_call) (calls : list pool_call)
    (out : outcome) (outs : list outcome) :
  held k h (o :: calls) (out :: outs) = held k (held k h [o] [out]) calls outs.
Proof.
  cbn [held]. destruct (String.eqb _ _); [| reflexivity].
  destruct o, out; destruct calls, outs; reflexivity.
Qed.

Lemma paired_cons (k : string) (h : Z) (o : pool_call) (calls : list pool_call)
    (out : outcome) (outs : list outcome) :
  paired k h (o :: calls) (out :: outs) =
    paired k h [o] [out] && paired k (held k h [o] [out]) calls outs.
Proof.
  cbn [held paired]. destruct (String.eqb _ _); [| reflexivity].
  destruct o, out; cbn; rewrite ?andb_true_r; reflexivity.
Qed.

Lemma pool_runs_sessions_ok (k : string) (m : Z) (calls : list pool_call)
    (c c' : apiClient) (outs : list outcome) :
  pool_runs calls c outs c' ->
  m <= Go.max_int ->
  forall h : Z,
    sessions_ok k m h c ->
    paired k h calls outs = true ->
    sessions_ok k m (held k h calls outs) c'.
Proof.
  intros R Hm. induction R as [c | o calls c out c1 outs c2 T R IH]; intros h Hok Hp.
  - exact Hok.
  - rewrite paired_cons in Hp. apply andb_prop in Hp. destruct Hp as [Hp1 Hp2].
    rewrite held_cons. apply IH; [| exact Hp2].
    eapply pool_trans_sessions_ok; eassumption.
Qed.

Lemma sessions_ok_configure (k : string) (d : ResourceData) :
  sessions_ok k (max_sessions d) 0 (configure d).
Proof.
  unfold sessions_ok, configure, active; cbn.
  rewrite !lookup_empty. cbn. repeat split; lia.
Qed.

(** C1, as the code has it.  Take any sequence of steps of a freshly
    configured pool, in any environment, in which every release of an identity
    gives back a session that is held.  Then the counter of that identity is
    the number of sessions held; it is never negative, and never above
    [max_sessions], or above 1 when [max_sessions] is below 1. *)
Theorem active_sessions_bounded (E : Env) (w w' : World E) (d0 : ResourceData)
    (calls : list pool_call) (outs : list outcome) (c : apiClient)
    (tr : list event) (k : string) :
  max_sessions d0 <= Go.max_int ->
  exec E (pool_run calls (configure d0)) w = ((outs, c), w', tr) ->
  paired k 0 calls outs = true ->
  active c k = held k 0 calls outs /\
  0 <= active c k <= Z.max 1 (max_sessions d0).
Proof.
  intros Hm Hrun Hp.
  apply exec_pool_run in Hrun.
  destruct (pool_runs_sessions_ok k (max_sessions d0) calls _ _ outs Hrun Hm 0
              (sessions_ok_configure k d0) Hp) as (_ & Hact & Hh & _).
  rewrite Hact. split; [reflexivity | exact Hh].
Qed.

Lemma active_sessions_bounded_witness :
  let E := counting (behave quiet) in
  let calls := [Acquire data_direct; Acquire data_direct; Release data_direct] in
  let r := exec E (pool_run calls (configure data_direct)) 0%nat in
  max_sessions data_direct <= Go.max_int /\
  paired (resourceConnectionHash data_direct) 0 calls r.1.1.1 = true /\
  active r.1.1.2 (resourceConnectionHash data_direct) = 1 /\
  0 <= active r.1.1.2 (resourceConnectionHash data_direct) <= 3.
Proof.
  intros E calls r.
  assert (Hm : max_sessions data_direct <= Go.max_int) by (vm_compute; discriminate).
  assert (Hp : paired (resourceConnectionHash data_direct) 0 calls r.1.1.1 = true)
    by (vm_compute; reflexivity).
  split; [exact Hm |]. split; [exact Hp |].
  destruct (active_sessions_bounded E 0%nat r.1.2 data_direct calls r.1.1.1
              r.1.1.2 r.2 (resourceConnectionHash data_direct) Hm
              ltac:(vm_compute; reflexivity) Hp) as [H1 H2].
  split; [rewrite H1; vm_compute; reflexivity | exact H2].
Defined.

(** C1 as stated fails.  A release that no acquisition precedes takes the
    counter of a fresh pool to -1; and with [max_sessions] set to 0 the first
    acquisition takes the counter to 1. *)
Lemma active_sessions_out_of_bounds :
  let E := counting (behave quiet) in
  let k := resourceConnectionHash data_direct in
  active (exec E (pool_run [Release data_direct] (configure data_direct))
            0%nat).1.1.2 k = -1 /\
  active (exec E (pool_run [Acquire data_direct] (configure data_no_sessions))
            0%nat).1.1.2 k = 1 /\
  max_sessions data_no_sessions = 0.
Proof. repeat split; vm_compute; reflexivity. Qed.

(** *** The pool within the range of the counters *)

Lemma pool_wf_weaken (m n n' : Z) (c : apiClient) :
  n <= n' -> pool_wf m n c -> pool_wf m n' c.
Proof.
  intros Hn [Hm H]. split; [exact Hm |]. intros k. specialize (H k).
  destruct (remoteClients c !! k); lia.
Qed.

Lemma pool_trans_wf (m n : Z) (o : pool_call) (c c' : apiClient)
    (out : outcome) :
  pool_trans o c out c' ->
  m <= Go.max_int ->
  0 <= n < 2 ^ 63 ->
  pool_wf m n c ->
  pool_wf m (n + 1) c' /\ out <> ReleasePanicked.
Proof.
  intros T Hm Hn Hwf.
  pose proof max_int_value as Hmi. pose proof min_int_value as Hmin.
  assert (Hin : forall z, - n - 1 <= z <= Z.max 1 m -> Go.wrap z = z).
  { intros z Hz. apply wrap_id. unfold Go.in_int. lia. }
  assert (Hother : forall k, call_identity o <> k ->
            match remoteClients c' !! k with
            | Some _ => 1 <= active c' k <= Z.max 1 m
            | None => - (n + 1) <= active c' k <= 0
            end).
  { intros k Hk. destruct (pool_trans_other k o c c' out T Hk) as (_ & -> & ->).
    destruct Hwf as [_ H]. specialize (H k).
    destruct (remoteClients c !! k); lia. }
  assert (Hmax : maxSessions c' = m).
  { destruct Hwf as [<- _]. destruct T; reflexivity. }
  destruct Hwf as [Hmc Hwf].
  destruct T as [d c client Hc Hlt | d c client Hc Hle | d c client Hc
                | d c err Hc | d c Hz | d c client err Hz Hc | d c Hz Hc];
    pose proof (Hwf (resourceConnectionHash d)) as Hd; cbn [call_identity] in *.
  - split; [| discriminate]. split; [exact Hmax |]. intros k.
    destruct (decide (resourceConnectionHash d = k)) as [<- | Hk];
      [| apply Hother; exact Hk].
    pool_simpl. destruct (decide _); [| congruence].
    rewrite Hc in *. rewrite Hin by lia. lia.
  - split; [| discriminate]. apply pool_wf_weaken with n; [lia | split; assumption].
  - split; [| discriminate]. split; [exact Hmax |]. intros k.
    destruct (decide (resourceConnectionHash d = k)) as [<- | Hk];
      [| apply Hother; exact Hk].
    pool_simpl. destruct (decide _); [| congruence].
    rewrite lookup_insert_eq. lia.
  - split; [| discriminate]. apply pool_wf_weaken with n; [lia | split; assumption].
  - split; [| discriminate]. split; [exact Hmax |]. intros k.
    destruct (decide (resourceConnectionHash d = k)) as [<- | Hk];
      [| apply Hother; exact Hk].
    pool_simpl. destruct (decide _); [| congruence].
    destruct (remoteClients c !! resourceConnectionHash d);
      rewrite Hin in * by lia; lia.
  - split; [| discriminate]. split; [exact Hmax |]. intros k.
    destruct (decide (resourceConnectionHash d = k)) as [<- | Hk];
      [| apply Hother; exact Hk].
    pool_simpl. destruct (decide _); [| congruence].
    rewrite lookup_delete_eq. lia.
  - exfalso. rewrite Hc in Hd. rewrite Hin in Hz by lia. lia.
Qed.

Lemma pool_runs_wf (m : Z) (calls : list pool_call) (c c' : apiClient)
    (outs : list outcome) :
  pool_runs calls c outs c' ->
  m <= Go.max_int ->
  forall n : Z,
    0 <= n -> n + Z.of_nat (length calls) <= 2 ^ 63 ->
    pool_wf m n c ->
    pool_wf m (n + Z.of_nat (length calls)) c' /\ ~ In ReleasePanicked outs.
Proof.
  intros R Hm.
  induction R as [c | o calls c out c1 outs c2 T R IH]; intros n Hn Hlen Hwf.
  - cbn. rewrite Z.add_0_r. tauto.
  - cbn [length] in *. rewrite Nat2Z.inj_succ in *.
    destruct (pool_trans_wf m n o c c1 out T Hm ltac:(lia) Hwf) as [Hwf1 Hout].
    destruct (IH (n + 1) ltac:(lia) ltac:(lia) Hwf1) as [Hwf2 Houts].
    split.
    + replace (n + Z.succ (Z.of_nat (length calls)))
        with (n + 1 + Z.of_nat (length calls)) by lia.
      exact Hwf2.
    + intros [Heq | Hin]; [congruence | tauto].
Qed.

Lemma pool_wf_configure (d : ResourceData) :
  pool_wf (max_sessions d) 0 (configure d).
Proof.
  split; [reflexivity |]. intros k. unfold configure, active; cbn.
  rewrite !lookup_empty. cbn. lia.
Qed.

(** The release of the last session, from a state that pools [client]. *)
Lemma closeRemoteClient_last (E : Env) (w : World E) (d : ResourceData)
    (c : apiClient) (client : RemoteClient) :
  remoteClients c !! resourceConnectionHash d = Some client ->
  active c (resourceConnectionHash d) = 1 ->
  exec E (closeRemoteClient d c) w =
    let '(err, w1) := handle E _ (Client_Close (sshClient client)) w in
    ((Returned err,
      delete_client (set_active c (resourceConnectionHash d) 0)
        (resourceConnectionHash d)),
     w1, [Event (Client_Close (sshClient client)) err]).
Proof.
  intros Hc Ha. unfold closeRemoteClient.
  rewrite active_set_active. destruct (decide _); [| congruence].
  rewrite Ha. change (Go.wrap (1 - 1)) with 0. cbn [Z.eqb].
  change (remoteClients (set_active c (resourceConnectionHash d) 0))
    with (remoteClients c).
  rewrite Hc. unfold Close. cbn.
  destruct (handle E _ _ w) as [err w1]. reflexivity.
Qed.

(** An acquisition for an identity that is not pooled runs the builder. *)
Lemma getRemoteClient_iteration_absent (E : Env) (w : World E)
    (d : ResourceData) (c : apiClient) :
  remoteClients c !! resourceConnectionHash d = None ->
  exec E (getRemoteClient_iteration d c) w =
    let '(r, w1, tr) := exec E (remoteClientFromResourceData d) w in
    (match r with
     | Ok client =>
         (Return (Ok client),
          set_active (set_client c (resourceConnectionHash d) client)
            (resourceConnectionHash d) 1)
     | Err err => (Return (Err err), c)
     end, w1, tr).
Proof.
  intros Hc. unfold getRemoteClient_iteration. rewrite Hc, exec_bind.
  destruct (exec E (remoteClientFromResourceData d) w) as [[r w1] tr].
  destruct r; cbn; rewrite app_nil_r; reflexivity.
Qed.

(** So does [getRemoteClient], which returns in its first turn. *)
Lemma getRemoteClient_builds (E : Env) (w : World E) (d : ResourceData)
    (c : apiClient) (fuel : nat) :
  remoteClients c !! resourceConnectionHash d = None ->
  exec E (getRemoteClient (S fuel) d c) w =
    let '(r, w1, tr) := exec E (remoteClientFromResourceData d) w in
    (match r with
     | Ok client =>
         (Some (Ok client),
          set_active (set_client c (resourceConnectionHash d) client)
            (resourceConnectionHash d) 1)
     | Err err => (Some (Err err), c)
     end, w1, tr).
Proof.
  intros Hc. cbn [getRemoteClient]. rewrite exec_bind.
  rewrite (getRemoteClient_iteration_absent E w d c Hc).
  destruct (exec E (remoteClientFromResourceData d) w) as [[r w1] tr].
  destruct r; cbn; rewrite app_nil_r; reflexivity.
Qed.

(** C3.  Take a freshly configured pool after any sequence of fewer than 2^63
    steps, in any environment, and an identity whose counter is 1, so that a
    release takes it to 0.  Then the identity has a pooled entry; the release
    closes the client of that entry, once, and does nothing else; afterwards
    the entry is gone and the counter is 0; and the next acquisition for the
    identity runs the connection builder, whose client becomes the new entry
    with counter 1. *)
Theorem last_release_closes_entry (E : Env) (w w1 : World E)
    (d0 d : ResourceData) (calls : list pool_call) (outs : list outcome)
    (c : apiClient) (tr : list event) :
  let k := resourceConnectionHash d in
  max_sessions d0 <= Go.max_int ->
  Z.of_nat (length calls) < 2 ^ 63 ->
  exec E (pool_run calls (configure d0)) w = ((outs, c), w1, tr) ->
  active c k = 1 ->
  exists (client : RemoteClient) (err : option goerror) (c' : apiClient)
      (w2 : World E),
    remoteClients c !! k = Some client /\
    exec E (closeRemoteClient d c) w1 =
      ((Returned err, c'), w2, [Event (Client_Close (sshClient client)) err]) /\
    closed_clients (trace_of E (closeRemoteClient d c) w1) = [sshClient client] /\
    remoteClients c' !! k = None /\
    active c' k = 0 /\
    forall (w3 : World E) (fuel : nat),
      trace_of E (getRemoteClient (S fuel) d c') w3 =
        trace_of E (remoteClientFromResourceData d) w3 /\
      forall client' : RemoteClient,
        result_of E (remoteClientFromResourceData d) w3 = Ok client' ->
        exists c'',
          result_of E (getRemoteClient (S fuel) d c') w3 =
            (Some (Ok client'), c'') /\
          remoteClients c'' !! k = Some client' /\
          active c'' k = 1.
Proof.
  intros k Hm Hlen Hrun Ha.
  apply exec_pool_run in Hrun.
  destruct (pool_runs_wf (max_sessions d0) calls _ _ outs Hrun Hm 0
              ltac:(lia) ltac:(lia) (pool_wf_configure d0)) as [[_ Hwf] _].
  specialize (Hwf k).
  destruct (remoteClients c !! k) as [client |] eqn:Hc; [| lia].
  pose proof (closeRemoteClient_last E w1 d c client Hc Ha) as Hclose.
  destruct (handle E _ (Client_Close (sshClient client)) w1) as [err w2].
  exists client, err, (delete_client (set_active c k 0) k), w2.
  split; [reflexivity |]. split; [exact Hclose |].
  split; [unfold trace_of; rewrite Hclose; reflexivity |].
  assert (Hgone : remoteClients (delete_client (set_active c k 0) k) !! k = None)
    by (cbn; apply lookup_delete_eq).
  split; [exact Hgone |].
  split.
  { pool_simpl. destruct (decide _); [reflexivity | congruence]. }
  intros w3 fuel. unfold trace_of, result_of.
  rewrite (getRemoteClient_builds E w3 d _ fuel Hgone).
  destruct (exec E (remoteClientFromResourceData d) w3) as [[r w4] tr'].
  split; [reflexivity |].
  cbn. intros client' ->. eexists. split; [reflexivity |].
  split.
  - cbn. apply lookup_insert_eq.
  - pool_simpl. destruct (decide _); [reflexivity | congruence].
Qed.

Lemma last_release_closes_entry_witness :
  let E := counting (behave quiet) in
  let k := resourceConnectionHash data_direct in
  let r := exec E (pool_run [Acquire data_direct] (configure data_direct)) 0%nat in
  active r.1.1.2 k = 1 /\
  exists client : RemoteClient,
    remoteClients r.1.1.2 !! k = Some client /\
    closed_clients (trace_of E (closeRemoteClient data_direct r.1.1.2) r.1.2) =
      [sshClient client].
Proof.
  intros E k r.
  assert (Ha : active r.1.1.2 k = 1) by (vm_compute; reflexivity).
  split; [exact Ha |].
  destruct (last_release_closes_entry E 0%nat r.1.2 data_direct data_direct
              [Acquire data_direct] r.1.1.1 r.1.1.2 r.2
              ltac:(vm_compute; discriminate) ltac:(vm_compute; reflexivity)
              ltac:(vm_compute; reflexivity) Ha)
    as (client & err & c' & w2 & Hc & _ & Hclosed & _).
  exists client. split; [exact Hc | exact Hclosed].
Defined.

(** ** Acquisition *)

(** C9.  When the identity has no entry and the connection builder fails,
    [getRemoteClient] returns the error of the builder and the pool is as it
    was: same clients, same counters. *)
Theorem build_failure_leaves_pool (E : Env) (w : World E) (d : ResourceData)
    (c : apiClient) (err : goerror) (fuel : nat) :
  remoteClients c !! resourceConnectionHash d = None ->
  result_of E (remoteClientFromResourceData d) w = Err err ->
  result_of E (getRemoteClient (S fuel) d c) w = (Some (Err err), c) /\
  trace_of E (getRemoteClient (S fuel) d c) w =
    trace_of E (remoteClientFromResourceData d) w.
Proof.
  unfold result_of, trace_of. intros Hc Hb.
  rewrite (getRemoteClient_builds E w d c fuel Hc).
  destruct (exec E (remoteClientFromResourceData d) w) as [[r w1] tr].
  cbn in Hb. subst r. split; reflexivity.
Qed.

Lemma build_failure_leaves_pool_witness :
  let E := counting (behave (unreachable "localhost:8022" connection_refused)) in
  let c := configure data_direct in
  remoteClients c !! resourceConnectionHash data_direct = None /\
  result_of E (getRemoteClient 1 data_direct c) 0%nat =
    (Some (Err (Errorf dial_failure connection_refused)), c).
Proof.
  intros E c.
  assert (Hc : remoteClients c !! resourceConnectionHash data_direct = None)
    by reflexivity.
  split; [exact Hc |].
  apply (build_failure_leaves_pool E 0%nat data_direct c
           (Errorf dial_failure connection_refused) 0%nat Hc).
  reflexivity.
Defined.

(** With a session free, [getRemoteClient] returns the pooled client in its
    first turn and counts the session; the environment is not asked. *)
Lemma getRemoteClient_reuses (E : Env) (w : World E) (d : ResourceData)
    (c : apiClient) (client : RemoteClient) (fuel : nat) :
  remoteClients c !! resourceConnectionHash d = Some client ->
  active c (resourceConnectionHash d) < maxSessions c ->
  exec E (getRemoteClient (S fuel) d c) w =
    ((Some (Ok client),
      set_active c (resourceConnectionHash d)
        (Go.wrap (active c (resourceConnectionHash d) + 1))),
     w, []).
Proof.
  intros Hc Hlt. cbn [getRemoteClient]. rewrite exec_bind.
  unfold getRemoteClient_iteration. rewrite Hc.
  destruct (Z.leb_spec (maxSessions c) (active c (resourceConnectionHash d)));
    [lia | reflexivity].
Qed.

(** At the ceiling, [getRemoteClient] run alone goes round its loop for as
    long as it is given, and changes nothing. *)
Lemma getRemoteClient_waits (E : Env) (w : World E) (d : ResourceData)
    (c : apiClient) (client : RemoteClient) (fuel : nat) :
  remoteClients c !! resourceConnectionHash d = Some client ->
  maxSessions c <= active c (resourceConnectionHash d) ->
  exec E (getRemoteClient fuel d c) w = ((None, c), w, []).
Proof.
  intros Hc Hle. induction fuel as [| fuel IH]; [reflexivity |].
  cbn [getRemoteClient]. rewrite exec_bind.
  unfold getRemoteClient_iteration. rewrite Hc.
  destruct (Z.leb_spec (maxSessions c) (active c (resourceConnectionHash d)));
    [| lia].
  cbn. rewrite IH. reflexivity.
Qed.

(** * Further properties of the code *)

(** ** The pool in every reachable state *)

(** X1.  After fewer than 2^63 steps of a freshly configured pool, in any
    environment and whether or not releases are matched by acquisitions, an
    identity has a pooled client exactly when its counter is at least 1, and
    no counter is above [max_sessions] (or above 1 when that is below 1). *)
Theorem pooled_iff_counted (E : Env) (w w' : World E) (d0 : ResourceData)
    (calls : list pool_call) (outs : list outcome) (c : apiClient)
    (tr : list event) (k : string) :
  max_sessions d0 <= Go.max_int ->
  Z.of_nat (length calls) < 2 ^ 63 ->
  exec E (pool_run calls (configure d0)) w = ((outs, c), w', tr) ->
  (is_Some (remoteClients c !! k) <-> 1 <= active c k) /\
  active c k <= Z.max 1 (max_sessions d0).
Proof.
  intros Hm Hlen Hrun. apply exec_pool_run in Hrun.
  destruct (pool_runs_wf (max_sessions d0) calls _ _ outs Hrun Hm 0
              ltac:(lia) ltac:(lia) (pool_wf_configure d0)) as [[_ Hwf] _].
  specialize (Hwf k).
  destruct (remoteClients c !! k) as [client |].
  - split; [| lia]. split; [lia | eauto].
  - split; [| lia]. split; [intros [? [=]] | lia].
Qed.

Lemma pooled_iff_counted_witness :
  let E := counting (behave quiet) in
  let calls := [Release data_direct; Acquire data_direct; Acquire data_proxied] in
  let r := exec E (pool_run calls (configure data_direct)) 0%nat in
  (is_Some (remoteClients r.1.1.2 !! resourceConnectionHash data_direct) <->
   1 <= active r.1.1.2 (resourceConnectionHash data_direct)) /\
  active r.1.1.2 (resourceConnectionHash data_direct) <= 3.
Proof.
  intros E calls r.
  apply (pooled_iff_counted E 0%nat r.1.2 data_direct calls r.1.1.1 r.1.1.2 r.2
           (resourceConnectionHash data_direct)).
  - vm_compute; discriminate.
  - vm_compute; reflexivity.
  - vm_compute; reflexivity.
Defined.

(** X2.  In such a run [closeRemoteClient] never reaches [client.Close()] with a
    nil client: no release panics, matched or not. *)
Theorem release_never_panics (E : Env) (w w' : World E) (d0 : ResourceData)
    (calls : list pool_call) (outs : list outcome) (c : apiClient)
    (tr : list event) :
  max_sessions d0 <= Go.max_int ->
  Z.of_nat (length calls) < 2 ^ 63 ->
  exec E (pool_run calls (configure d0)) w = ((outs, c), w', tr) ->
  ~ In ReleasePanicked outs.
Proof.
  intros Hm Hlen Hrun. apply exec_pool_run in Hrun.
  apply (pool_runs_wf (max_sessions d0) calls _ _ outs Hrun Hm 0
           ltac:(lia) ltac:(lia) (pool_wf_configure d0)).
Qed.

Lemma release_never_panics_witness :
  let E := counting (behave quiet) in
  let calls := [Release data_direct; Release data_direct; Acquire data_direct;
                Release data_direct; Release data_direct] in
  ~ In ReleasePanicked
      (exec E (pool_run calls (configure data_direct)) 0%nat).1.1.1.
Proof.
  intros E calls.
  set (r := exec E (pool_run calls (configure data_direct)) 0%nat).
  apply (release_never_panics E 0%nat r.1.2 data_direct calls r.1.1.1 r.1.1.2 r.2).
  - vm_compute; discriminate.
  - vm_compute; reflexivity.
  - vm_compute; reflexivity.
Defined.

(** X3.  A step for one identity leaves the counter and the pooled client of every
    other identity as they were, and the ceiling too. *)
Theorem pool_step_other_identity (E : Env) (w w' : World E) (o : pool_call)
    (c c' : apiClient) (out : outcome) (tr : list event) (k : string) :
  exec E (pool_step o c) w = ((out, c'), w', tr) ->
  call_identity o <> k ->
  active c' k = active c k /\
  remoteClients c' !! k = remoteClients c !! k /\
  maxSessions c' = maxSessions c.
Proof.
  intros Hstep Hk. apply exec_pool_step in Hstep.
  destruct (pool_trans_other k o c c' out Hstep Hk) as (H1 & H2 & H3). tauto.
Qed.

Lemma pool_step_other_identity_witness :
  let E := counting (behave quiet) in
  let c := (exec E (pool_run [Acquire data_direct] (configure data_direct))
              0%nat).1.1.2 in
  let r := exec E (pool_step (Release data_proxied) c) 1%nat in
  active r.1.1.2 (resourceConnectionHash data_direct) = 1 /\
  remoteClients r.1.1.2 !! resourceConnectionHash data_direct =
    Some {| sshClient := 0%nat |}.
Proof.
  intros E c r.
  destruct (pool_step_other_identity E 1%nat r.1.2 (Release data_proxied) c
              r.1.1.2 r.1.1.1 r.2 (resourceConnectionHash data_direct)
              ltac:(vm_compute; reflexivity) ltac:(vm_compute; discriminate))
    as (H1 & H2 & _).
  split; [rewrite H1 | rewrite H2]; vm_compute; reflexivity.
Defined.

(** ** Sharing, waiting and giving back *)

(** A release that leaves sessions behind asks nothing of the environment and
    keeps the pooled client. *)
Lemma closeRemoteClient_keeps (E : Env) (w : World E) (d : ResourceData)
    (c : apiClient) :
  2 <= active c (resourceConnectionHash d) <= Go.max_int ->
  exec E (closeRemoteClient d c) w =
    ((Returned None,
      set_active c (resourceConnectionHash d)
        (active c (resourceConnectionHash d) - 1)),
     w, []).
Proof.
  intros Ha. pose proof max_int_value. pose proof min_int_value.
  unfold closeRemoteClient.
  rewrite active_set_active. destruct (decide _); [| congruence].
  rewrite wrap_id by (unfold Go.in_int; lia).
  destruct (Z.eqb_spec (active c (resourceConnectionHash d) - 1) 0); [lia |].
  reflexivity.
Qed.

(** X4.  Two resources with the same identity share one connection: on a fresh
    pool with room for two sessions, the first acquisition runs the builder
    and the second returns the same client without any call to the
    environment; the counter is 2. *)
Theorem second_acquisition_shares (E : Env) (w w1 : World E)
    (d0 d d' : ResourceData) (client : RemoteClient) (tr : list event) :
  resourceConnectionHash d = resourceConnectionHash d' ->
  2 <= max_sessions d0 <= Go.max_int ->
  exec E (remoteClientFromResourceData d) w = (Ok client, w1, tr) ->
  exists c : apiClient,
    exec E (pool_run [Acquire d; Acquire d'] (configure d0)) w =
      (([Acquired client; Acquired client], c), w1, tr) /\
    remoteClients c !! resourceConnectionHash d = Some client /\
    active c (resourceConnectionHash d) = 2.
Proof.
  intros Hk Hm Hb. pose proof max_int_value.
  eexists. split.
  - cbn [pool_run pool_step]. rewrite !exec_bind.
    rewrite (getRemoteClient_iteration_absent E w d (configure d0))
      by apply lookup_empty.
    rewrite Hb. cbn -[configure resourceConnectionHash Go.wrap].
    rewrite !exec_bind.
    unfold getRemoteClient_iteration. rewrite <- Hk.
    cbn [remoteClients set_active set_client]. rewrite lookup_insert_eq.
    pool_simpl. destruct (decide _); [| congruence].
    cbn [configure maxSessions].
    destruct (Z.leb_spec (max_sessions d0) 1); [lia |].
    cbn -[configure resourceConnectionHash Go.wrap].
    rewrite !app_nil_r. reflexivity.
  - split.
    + cbn. apply lookup_insert_eq.
    + pool_simpl. destruct (decide _); [| congruence]. reflexivity.
Qed.

Lemma second_acquisition_shares_witness :
  let E := counting (behave quiet) in
  resourceConnectionHash data_direct = resourceConnectionHash data_direct_sudo /\
  exists c : apiClient,
    exec E (pool_run [Acquire data_direct; Acquire data_direct_sudo]
              (configure data_direct)) 0%nat =
      (([Acquired {| sshClient := 0%nat |}; Acquired {| sshClient := 0%nat |}],
        c), 1%nat,
       [Event (ssh_Dial "localhost:8022" config_root) (Ok 0%nat)]) /\
    remoteClients c !! resourceConnectionHash data_direct =
      Some {| sshClient := 0%nat |} /\
    active c (resourceConnectionHash data_direct) = 2.
Proof.
  intros E. split; [reflexivity |].
  apply (second_acquisition_shares E 0%nat 1%nat data_direct data_direct
           data_direct_sudo {| sshClient := 0%nat |}
           [Event (ssh_Dial "localhost:8022" config_root) (Ok 0%nat)]).
  - reflexivity.
  - vm_compute. split; discriminate.
  - reflexivity.
Defined.

(** X5.  An acquisition followed by its release gives the pool back: for an
    identity that is not pooled and has counter 0, the builder runs, its
    client is closed once by the release, and afterwards the pooled clients
    are those of before and every counter has its old value. *)
Theorem acquire_release_round_trip (E : Env) (w w1 : World E)
    (d : ResourceData) (c : apiClient) (client : RemoteClient)
    (tr : list event) :
  remoteClients c !! resourceConnectionHash d = None ->
  active c (resourceConnectionHash d) = 0 ->
  exec E (remoteClientFromResourceData d) w = (Ok client, w1, tr) ->
  exists (c' : apiClient) (err : option goerror) (w2 : World E),
    exec E (pool_run [Acquire d; Release d] c) w =
      (([Acquired client; Released err], c'), w2,
       tr ++ [Event (Client_Close (sshClient client)) err]) /\
    remoteClients c' = remoteClients c /\
    (forall k : string, active c' k = active c k) /\
    maxSessions c' = maxSessions c.
Proof.
  intros Hc Ha Hb.
  set (k := resourceConnectionHash d) in *.
  set (c1 := set_active (set_client c k client) k 1).
  assert (Hc1 : remoteClients c1 !! k = Some client)
    by (cbn; apply lookup_insert_eq).
  assert (Ha1 : active c1 k = 1).
  { unfold c1. pool_simpl. destruct (decide _); [reflexivity | congruence]. }
  pose proof (closeRemoteClient_last E w1 d c1 client Hc1 Ha1) as Hclose.
  destruct (handle E _ (Client_Close (sshClient client)) w1) as [err w2].
  exists (delete_client (set_active c1 k 0) k), err, w2.
  split; [| split; [| split]].
  - cbn [pool_run pool_step]. rewrite !exec_bind.
    rewrite (getRemoteClient_iteration_absent E w d c Hc). rewrite Hb.
    cbn -[closeRemoteClient resourceConnectionHash].
    rewrite !exec_bind. fold k. fold c1. rewrite Hclose.
    cbn -[resourceConnectionHash]. rewrite !app_nil_r. reflexivity.
  - cbn. rewrite delete_insert_eq. apply delete_id. exact Hc.
  - intros k'. unfold c1. pool_simpl.
    destruct (decide (k = k')) as [<- | Hk]; [symmetry; exact Ha |].
    destruct (decide (k = k')); [congruence | reflexivity].
  - reflexivity.
Qed.

Lemma acquire_release_round_trip_witness :
  let E := counting (behave quiet) in
  let c := configure data_direct in
  let r := exec E (pool_run [Acquire data_direct; Release data_direct] c) 0%nat in
  remoteClients c !! resourceConnectionHash data_direct = None /\
  remoteClients r.1.1.2 = remoteClients c /\
  closed_clients r.2 = [0%nat].
Proof.
  intros E c r.
  assert (Hc : remoteClients c !! resourceConnectionHash data_direct = None)
    by reflexivity.
  split; [exact Hc |].
  destruct (acquire_release_round_trip E 0%nat 1%nat data_direct c
              {| sshClient := 0%nat |}
              [Event (ssh_Dial "localhost:8022" config_root) (Ok 0%nat)]
              Hc eq_refl eq_refl)
    as (c' & err & w2 & Hrun & Hclients & _).
  unfold r. rewrite Hrun. cbn [fst snd]. split; [exact Hclients | reflexivity].
Defined.

(** X6.  At the ceiling a caller waits, and a release lets it in: with the
    identity pooled and its counter at [max_sessions] (at least 2),
    [getRemoteClient] run alone never returns, however long; after one
    [closeRemoteClient] it returns the pooled client in its first turn, and
    the counter is at the ceiling again. *)
Theorem ceiling_waits_until_release (E : Env) (w : World E) (d : ResourceData)
    (c : apiClient) (client : RemoteClient) :
  let k := resourceConnectionHash d in
  remoteClients c !! k = Some client ->
  active c k = maxSessions c ->
  2 <= maxSessions c <= Go.max_int ->
  (forall fuel : nat, exec E (getRemoteClient fuel d c) w = ((None, c), w, [])) /\
  exists c1 c2 : apiClient,
    exec E (closeRemoteClient d c) w = ((Returned None, c1), w, []) /\
    (forall fuel : nat,
       exec E (getRemoteClient (S fuel) d c1) w =
         ((Some (Ok client), c2), w, [])) /\
    active c2 k = maxSessions c /\
    remoteClients c2 !! k = Some client.
Proof.
  intros k Hc Ha Hm. subst k.
  pose proof max_int_value. pose proof min_int_value.
  split.
  - intros fuel. apply getRemoteClient_waits with client; [exact Hc | lia].
  - eexists. eexists. split; [| split; [| split]].
    + apply closeRemoteClient_keeps. lia.
    + intros fuel. apply getRemoteClient_reuses.
      * exact Hc.
      * pool_simpl. destruct (decide _); [| congruence]. lia.
    + pool_simpl. repeat (destruct (decide _); [| congruence]).
      rewrite wrap_id by (unfold Go.in_int; lia). lia.
    + exact Hc.
Qed.

Lemma ceiling_waits_until_release_witness :
  let E := counting (behave quiet) in
  let calls := [Acquire data_direct; Acquire data_direct; Acquire data_direct] in
  let c := (exec E (pool_run calls (configure data_direct)) 0%nat).1.1.2 in
  active c (resourceConnectionHash data_direct) = maxSessions c /\
  forall fuel : nat,
    exec E (getRemoteClient fuel data_direct c) 1%nat = ((None, c), 1%nat, []).
Proof.
  intros E calls c.
  assert (Ha : active c (resourceConnectionHash data_direct) = maxSessions c)
    by (vm_compute; reflexivity).
  split; [exact Ha |].
  apply (ceiling_waits_until_release E 1%nat data_direct c {| sshClient := 0%nat |}).
  - vm_compute; reflexivity.
  - exact Ha.
  - vm_compute. split; discriminate.
Defined.

(** ** Identities of equal configurations *)

(** X8.  Configurations whose identity-relevant fields are pairwise equal have the
    same identity, whatever their strings contain: they differ at most in
    [sudo], [timeout] and [max_sessions], which do not enter the identity. *)
Theorem equal_fields_equal_identity (d1 d2 : ResourceData) :
  identity_equal d1 d2 ->
  resourceConnectionHash d1 = resourceConnectionHash d2.
Proof.
  intros [Hc Hp].
  unfold identity_fields in Hc, Hp.
  injection Hc as ? ? ? ? ? ? ? ?. injection Hp as ? ? ? ? ? ? ? ?.
  unfold resourceConnectionHash, hash_elements.
  rewrite !resourceStringWithDefault_Get.
  unfold resourceIntWithDefault, resourceBoolWithDefault, GetOk.
  repeat match goal with
  | Hf : Get _ (_ d1) _ = Get _ (_ d2) _ |- _ => rewrite ?Hf; clear Hf
  end.
  reflexivity.
Qed.

Lemma equal_fields_equal_identity_witness :
  identity_equal data_direct data_direct_sudo /\
  resourceConnectionHash data_direct = resourceConnectionHash data_direct_sudo.
Proof.
  assert (H : identity_equal data_direct data_direct_sudo)
    by (split; reflexivity).
  split; [exact H | exact (equal_fields_equal_identity _ _ H)].
Defined.

(** ** connection.go: building the client configuration *)

Lemma configured_agent (block : option Connection) :
  configured false block agent && Get false block agent = Get false block agent.
Proof.
  unfold configured, GetOk. cbn. destruct (Get false block agent); reflexivity.
Qed.

Ltac credentials :=
  repeat match goal with
  | |- context [bool_decide ?P] => destruct (bool_decide P)
  end.

Lemma connFromResourceData_shape (E : Env) (w : World E)
    (block : option Connection) (addr : string) (clientConfig : ClientConfig) :
  result_of E (connFromResourceData block) w = Ok (addr, clientConfig) ->
  addr = Get "" block host +:+ ":" +:+ Go.Itoa (Get 0 block port) /\
  User clientConfig = Get "" block user /\
  map kind_of (Auth clientConfig) = expected_auth block /\
  (configured "" block password = true ->
   head (Auth clientConfig) = Some (Password (Get "" block password))).
Proof.
  unfold result_of, connFromResourceData, and_then, expected_auth, configured,
    GetOk.
  cbn [fst snd].
  destruct (Get false block agent).
  - change (bool_decide (true = false)) with false.
    credentials; cbn; all_calls; intros [= <- <-] || discriminate;
      repeat split; first [reflexivity | discriminate].
  - change (bool_decide (false = false)) with true.
    credentials; cbn; all_calls; intros [= <- <-] || discriminate;
      repeat split; first [reflexivity | discriminate].
Qed.

(** The calls behind the methods: each key is parsed from its own source, in
    the order inline key, key file, environment variable, and the agent is
    reached last. *)
Lemma connFromResourceData_calls (E : Env) (w : World E)
    (block : option Connection) (addr : string) (clientConfig : ClientConfig) :
  result_of E (connFromResourceData block) w = Ok (addr, clientConfig) ->
  exists (signer1 signer2 signer3 : ssh_Signer) (content value sock : string)
      (agentConn : net_Conn),
    trace_of E (connFromResourceData block) w =
      credential_calls block signer1 signer2 signer3 content value sock
        agentConn /\
    Auth clientConfig =
      credential_methods block signer1 signer2 signer3 agentConn.
Proof.
  unfold result_of, trace_of, connFromResourceData, and_then,
    credential_calls, credential_methods, configured, GetOk.
  cbn [fst snd].
  destruct (Get false block agent);
    [change (bool_decide (true = false)) with false
    | change (bool_decide (false = false)) with true];
  credentials; cbn; all_calls; intros [= <- <-] || discriminate;
    repeat eexists.
  Unshelve. all: first [exact 0%nat | exact EmptyString].
Qed.

(** X10.  What a successful [connFromResourceData] returns: the address is
    [host:port], the user is the user of the block, and the authentication
    methods are one for each configured credential, in the order password,
    inline key, key file, key from the environment, agent.  The signer of the
    inline key is parsed from [private_key]; that of the key file from the
    content read at [private_key_path]; that of the environment key from the
    value of the variable named by [private_key_env_var]; the agent is the
    connection to the socket named by [SSH_AUTH_SOCK]; and these are all the
    calls made, in this order. *)
Theorem connFromResourceData_success (E : Env) (w : World E)
    (block : option Connection) (addr : string) (clientConfig : ClientConfig) :
  result_of E (connFromResourceData block) w = Ok (addr, clientConfig) ->
  (addr = Get "" block host +:+ ":" +:+ Go.Itoa (Get 0 block port) /\
   User clientConfig = Get "" block user /\
   map kind_of (Auth clientConfig) = expected_auth block /\
   (configured "" block password = true ->
    head (Auth clientConfig) = Some (Password (Get "" block password)))) /\
  exists (signer1 signer2 signer3 : ssh_Signer) (content value sock : string)
      (agentConn : net_Conn),
    trace_of E (connFromResourceData block) w =
      credential_calls block signer1 signer2 signer3 content value sock
        agentConn /\
    Auth clientConfig =
      credential_methods block signer1 signer2 signer3 agentConn.
Proof.
  intros H. split.
  - exact (connFromResourceData_shape E w block addr clientConfig H).
  - exact (connFromResourceData_calls E w block addr clientConfig H).
Qed.

Lemma connFromResourceData_success_witness :
  let E := counting (behave quiet) in
  let block := Some (conn_secret "secret" "/home/u/.ssh/id_ed25519") in
  exists (addr : string) (clientConfig : ClientConfig),
    result_of E (connFromResourceData block) 0%nat = Ok (addr, clientConfig) /\
    Auth clientConfig = [Password "secret"; PublicKeys 1%nat] /\
    trace_of E (connFromResourceData block) 0%nat =
      [Event (ioutil_ReadFile "/home/u/.ssh/id_ed25519") (Ok "");
       Event (ssh_ParsePrivateKey "") (Ok 1%nat)].
Proof.
  intros E block.
  exists "h:22",
    {| User := "u"; Auth := [Password "secret"; PublicKeys 1%nat];
       Timeout := 0 |}.
  assert (H : result_of E (connFromResourceData block) 0%nat =
      Ok ("h:22", {| User := "u"; Auth := [Password "secret"; PublicKeys 1%nat];
                     Timeout := 0 |})) by reflexivity.
  split; [exact H |].
  destruct (proj2 (connFromResourceData_success E 0%nat block _ _ H))
    as (s1 & s2 & s3 & content & value & sock & agentConn & Htr & Hauth).
  split; reflexivity.
Defined.

Lemma connFromResourceData_local_calls (E : Env) (w : World E)
    (block : option Connection) :
  only_transport Local (trace_of E (connFromResourceData block) w).
Proof.
  unfold only_transport, trace_of, connFromResourceData, and_then, GetOk.
  cbn [fst snd].
  destruct (Get false block agent);
    [change (bool_decide (true = false)) with false
    | change (bool_decide (false = false)) with true];
  credentials; cbn; all_calls; repeat constructor.
Qed.

(** X11.  Building a configuration touches the local machine only (key parsing,
    key file, environment, agent socket): it never dials the network and
    never opens a session; and with no credential configured it makes no call
    at all. *)
Theorem connFromResourceData_local (E : Env) (w : World E)
    (block : option Connection) :
  only_transport Local (trace_of E (connFromResourceData block) w) /\
  (expected_auth block = [] ->
   trace_of E (connFromResourceData block) w = []).
Proof.
  unfold only_transport, trace_of, connFromResourceData, and_then,
    expected_auth, configured, GetOk.
  cbn [fst snd].
  destruct (Get false block agent).
  - change (bool_decide (true = false)) with false.
    credentials; cbn; all_calls;
      (split; [repeat constructor | first [discriminate | reflexivity]]).
  - change (bool_decide (false = false)) with true.
    credentials; cbn; all_calls;
      (split; [repeat constructor | first [discriminate | reflexivity]]).
Qed.

Lemma connFromResourceData_local_witness :
  let E := counting (behave quiet) in
  let block := Some (conn_env "") in
  expected_auth block = [] /\
  trace_of E (connFromResourceData block) 0%nat = [].
Proof.
  intros E block.
  assert (H : expected_auth block = []) by reflexivity.
  split; [exact H |].
  exact (proj2 (connFromResourceData_local E 0%nat block) H).
Defined.

(** X12.  The first credential that cannot be used ends the building: the answer
    is an error exactly when a call failed, that call is the last one made,
    no call before it failed, and the error is one made by [fmt.Errorf]. *)
Theorem connFromResourceData_stops_at_failure (E : Env) (w : World E)
    (block : option Connection) :
  let tr := trace_of E (connFromResourceData block) w in
  match result_of E (connFromResourceData block) w with
  | Ok _ => filter (fun ev => event_failed ev = true) tr = []
  | Err err =>
      (exists msg, err = ErrorString msg) /\
      exists tr' ev,
        tr = tr' ++ [ev] /\ event_failed ev = true /\
        filter (fun ev => event_failed ev = true) tr' = []
  end.
Proof.
  unfold result_of, trace_of, connFromResourceData, and_then, GetOk, Errorf.
  cbn [fst snd].
  destruct (Get false block agent);
    [change (bool_decide (true = false)) with false
    | change (bool_decide (false = false)) with true];
  credentials; cbn; all_calls;
    first
      [ reflexivity
      | split; [eexists; reflexivity |];
        first
          [ eexists [], _; split; [reflexivity | split; reflexivity]
          | eexists [_], _; split; [reflexivity | split; reflexivity]
          | eexists [_; _], _; split; [reflexivity | split; reflexivity]
          | eexists [_; _; _], _; split; [reflexivity | split; reflexivity]
          | eexists [_; _; _; _], _; split; [reflexivity | split; reflexivity]
          | eexists [_; _; _; _; _], _; split; [reflexivity | split; reflexivity]
          | eexists [_; _; _; _; _; _], _;
            split; [reflexivity | split; reflexivity] ] ].
Qed.

(** X13.  The timeout is given in milliseconds and kept in nanoseconds: up to
    9223372036854 ms either way the conversion is exact (0 stays "no
    timeout"); beyond that the 64-bit product wraps. *)
Theorem connFromResourceData_timeout (E : Env) (w : World E)
    (block : option Connection) (addr : string) (clientConfig : ClientConfig) :
  result_of E (connFromResourceData block) w = Ok (addr, clientConfig) ->
  -9223372036854 <= Get 0 block timeout <= 9223372036854 ->
  Timeout clientConfig = Get 0 block timeout * Millisecond.
Proof.
  intros H Hrange. revert H.
  assert (Hw : Go.wrap (Get 0 block timeout * Millisecond) =
               Get 0 block timeout * Millisecond).
  { apply wrap_id. unfold Go.in_int, Millisecond.
    rewrite min_int_value, max_int_value. lia. }
  unfold result_of, connFromResourceData, and_then, GetOk.
  cbn [fst snd]. rewrite Hw.
  destruct (bool_decide_reflect (Get 0 block timeout = 0)) as [Hz | Hz].
  - rewrite Hz.
    destruct (Get false block agent);
      [change (bool_decide (true = false)) with false
      | change (bool_decide (false = false)) with true];
    credentials; cbn; all_calls; intros [= <- <-] || discriminate; reflexivity.
  - destruct (Get false block agent);
      [change (bool_decide (true = false)) with false
      | change (bool_decide (false = false)) with true];
    credentials; cbn; all_calls; intros [= <- <-] || discriminate; reflexivity.
Qed.

Lemma connFromResourceData_timeout_witness :
  let E := counting (behave quiet) in
  let block := conn data_direct_sudo in
  exists addr clientConfig,
    result_of E (connFromResourceData block) 0%nat = Ok (addr, clientConfig) /\
    Timeout clientConfig = 1000000000.
Proof.
  intros E block.
  exists "localhost:8022",
    {| User := "root"; Auth := [Password "password"]; Timeout := 1000000000 |}.
  assert (H : result_of E (connFromResourceData block) 0%nat =
      Ok ("localhost:8022",
          {| User := "root"; Auth := [Password "password"];
             Timeout := 1000000000 |})) by reflexivity.
  split; [exact H |].
  rewrite (connFromResourceData_timeout E 0%nat block _ _ H);
    [reflexivity | vm_compute; split; discriminate].
Defined.

(** ** provider.go: from configuration to client *)

(** The address of a configuration that could be built is not empty. *)
Lemma connFromResourceData_address (E : Env) (w w1 : World E)
    (block : option Connection) (addr : string) (clientConfig : ClientConfig)
    (tr : list event) :
  exec E (connFromResourceData block) w = (Ok (addr, clientConfig), w1, tr) ->
  String.eqb addr "" = false.
Proof.
  unfold connFromResourceData, and_then, GetOk.
  cbn [fst snd].
  destruct (Get false block agent);
    [change (bool_decide (true = false)) with false
    | change (bool_decide (false = false)) with true];
  credentials; cbn; all_calls; intros [= <- <- <- <-] || discriminate;
    destruct (Get "" block host); reflexivity.
Qed.

Lemma ConnectionFromResourceData_local (E : Env) (w : World E)
    (d : ResourceData) :
  only_transport Local (trace_of E (ConnectionFromResourceData d) w).
Proof.
  unfold ConnectionFromResourceData.
  destruct (GetOk_block (conn d)); cbn [negb].
  - apply connFromResourceData_local_calls.
  - constructor.
Qed.

Lemma ProxyConnectionFromResourceData_local (E : Env) (w : World E)
    (d : ResourceData) :
  only_transport Local (trace_of E (ProxyConnectionFromResourceData d) w).
Proof.
  unfold ProxyConnectionFromResourceData.
  destruct (GetOk_block (proxy_conn d)); cbn [negb]; [| constructor].
  unfold trace_of, and_then. rewrite exec_bind.
  pose proof (connFromResourceData_local_calls E w (proxy_conn d)) as H.
  unfold trace_of in H.
  destruct (exec E (connFromResourceData (proxy_conn d)) w) as [[r w1] tr].
  destruct r as [[addr cfg] | err]; cbn in *; rewrite app_nil_r; exact H.
Qed.

(** X14.  How [remoteClientFromResourceData] connects once both configurations are
    built: through the proxy whenever a [proxy_conn] block is present (the
    test for an empty proxy address never sends it to a direct dial), and
    directly when there is none; the calls are those of the two builders
    followed by those of the dial. *)
Theorem remoteClientFromResourceData_route (E : Env) (w w1 w2 : World E)
    (d : ResourceData) (addr : string) (clientConfig : ClientConfig)
    (proxy : option (string * ClientConfig)) (tr1 tr2 : list event) :
  exec E (ConnectionFromResourceData d) w = (Ok (addr, clientConfig), w1, tr1) ->
  exec E (ProxyConnectionFromResourceData d) w1 = (Ok proxy, w2, tr2) ->
  (is_Some proxy <-> is_Some (proxy_conn d)) /\
  exec E (remoteClientFromResourceData d) w =
    let '(r, w3, tr3) :=
      exec E
        match proxy with
        | Some (proxyAddr, proxyClientConfig) =>
            NewRemoteProxyClient addr clientConfig proxyAddr proxyClientConfig
        | None => NewRemoteClient addr clientConfig
        end w2 in
    (r, w3, tr1 ++ tr2 ++ tr3).
Proof.
  intros Hc Hp.
  assert (Hproxy : match proxy with
                   | Some (proxyAddr, _) =>
                       is_Some (proxy_conn d) /\ String.eqb proxyAddr "" = false
                   | None => proxy_conn d = None
                   end).
  { revert Hp. unfold ProxyConnectionFromResourceData.
    destruct (proxy_conn d) as [b |] eqn:Hb; cbn [GetOk_block negb].
    - unfold and_then. rewrite exec_bind.
      destruct (exec E (connFromResourceData (Some b)) w1)
        as [[r w'] tr'] eqn:Hex.
      destruct r as [[pa pc] | err]; cbn; intros [= <- <- <-].
      split; [eauto |]. eapply connFromResourceData_address; exact Hex.
    - cbn. intros [= <- <- <-]. reflexivity. }
  split.
  - destruct proxy as [[pa pc] |].
    + destruct Hproxy as [Hs _]. split; eauto.
    + rewrite Hproxy. split; intros [? [=]].
  - unfold remoteClientFromResourceData. rewrite exec_bind, Hc.
    cbn -[ProxyConnectionFromResourceData NewRemoteClient NewRemoteProxyClient].
    rewrite exec_bind, Hp.
    destruct proxy as [[pa pc] |].
    + destruct Hproxy as [_ Hne]. rewrite Hne. cbn [negb].
      destruct (exec E (NewRemoteProxyClient addr clientConfig pa pc) w2)
        as [[r w3] tr3].
      reflexivity.
    + destruct (exec E (NewRemoteClient addr clientConfig) w2) as [[r w3] tr3].
      reflexivity.
Qed.

Lemma remoteClientFromResourceData_route_witness :
  let E := counting (behave quiet) in
  exec E (remoteClientFromResourceData data_proxied) 0%nat =
    (Ok {| sshClient := 2%nat |}, 3%nat,
     [Event (ssh_Dial "localhost:8022" config_root) (Ok 0%nat);
      Event (Client_Dial 0%nat "remotehost2:22") (Ok 1%nat);
      Event (ssh_NewClientConn 1%nat "remotehost2:22" config_root) (Ok 2%nat)]).
Proof.
  intros E.
  rewrite (proj2 (remoteClientFromResourceData_route E 0%nat 0%nat 0%nat
                    data_proxied "remotehost2:22" config_root
                    (Some ("localhost:8022", config_root)) [] []
                    eq_refl eq_refl)).
  reflexivity.
Defined.

(** X15.  A configuration that cannot be built keeps the network untouched: when
    [remoteClientFromResourceData] returns the error of
    [ConnectionFromResourceData], a missing [conn] block included, or that of
    [ProxyConnectionFromResourceData], every call it made was local. *)
Theorem configuration_error_dials_nothing (E : Env) (w : World E)
    (d : ResourceData) (err : goerror) :
  let failed :=
    result_of E (remoteClientFromResourceData d) w = Err err /\
    only_transport Local (trace_of E (remoteClientFromResourceData d) w) in
  (result_of E (ConnectionFromResourceData d) w = Err err -> failed) /\
  (forall (addr : string) (clientConfig : ClientConfig) (w1 : World E)
      (tr1 : list event),
     exec E (ConnectionFromResourceData d) w =
       (Ok (addr, clientConfig), w1, tr1) ->
     result_of E (ProxyConnectionFromResourceData d) w1 = Err err ->
     failed).
Proof.
  intros failed. subst failed.
  pose proof (ConnectionFromResourceData_local E w d) as Hl.
  unfold result_of, trace_of, remoteClientFromResourceData in *.
  rewrite exec_bind.
  destruct (exec E (ConnectionFromResourceData d) w) as [[r w1] tr1].
  cbn [fst snd] in *.
  split.
  - intros ->. cbn. rewrite app_nil_r. split; [reflexivity | exact Hl].
  - intros addr cfg w1' tr1' [= -> <- <-] Hp.
    cbn -[ProxyConnectionFromResourceData].
    pose proof (ProxyConnectionFromResourceData_local E w1 d) as Hl2.
    unfold trace_of in Hl2. rewrite exec_bind.
    destruct (exec E (ProxyConnectionFromResourceData d) w1) as [[r2 w2] tr2].
    cbn [fst snd] in *. subst r2. cbn. rewrite app_nil_r.
    split; [reflexivity |]. unfold only_transport in *.
    apply Forall_app; split; assumption.
Qed.

Lemma configuration_error_dials_nothing_witness :
  let E := counting (behave quiet) in
  let d := {| conn := None; proxy_conn := None; max_sessions := 3 |} in
  let err := ErrorString "resouce does not have a connection configured" in
  result_of E (ConnectionFromResourceData d) 0%nat = Err err /\
  result_of E (remoteClientFromResourceData d) 0%nat = Err err /\
  only_transport Local (trace_of E (remoteClientFromResourceData d) 0%nat).
Proof.
  intros E d err.
  assert (H : result_of E (ConnectionFromResourceData d) 0%nat = Err err)
    by reflexivity.
  split; [exact H |].
  exact (proj1 (configuration_error_dials_nothing E 0%nat d err) H).
Defined.

(** X16.  The configuration that [getConnWithDefault] hands out always has a
    [conn] block, so [ConnectionFromResourceData] goes on to build it; the
    block of the resource itself wins over that of the provider, and the call
    fails exactly when neither has one. *)
Theorem getConnWithDefault_usable (c : apiClient) (d : ResourceData) :
  match getConnWithDefault c d with
  | Ok d' =>
      is_Some (conn d') /\
      ConnectionFromResourceData d' = connFromResourceData (conn d') /\
      (if GetOk_block (conn d) then d' = d else d' = resourceData c)
  | Err _ => conn d = None /\ conn (resourceData c) = None
  end.
Proof.
  unfold getConnWithDefault, ConnectionFromResourceData.
  destruct (conn d) as [b |] eqn:Hd; cbn.
  - rewrite Hd. cbn. eauto.
  - destruct (conn (resourceData c)) as [b |] eqn:Hc; cbn.
    + rewrite Hc. cbn. eauto.
    + tauto.
Qed.

(** ** remote_client.go: what every operation keeps *)

Ltac operation :=
  unfold balanced, opened, closed, result_of, trace_of, run, defer; cbn;
  all_calls; try reflexivity.

(** X18.  Every file operation closes the sessions, clients and remote files that
    it opened, the last opened first, whatever fails on the way. *)
Theorem operations_close_what_they_open (E : Env) (w : World E)
    (c : RemoteClient) (content path permissions owner group char : string)
    (sudo : bool) :
  balanced (trace_of E (WriteFile c content path permissions sudo) w) /\
  balanced (trace_of E (ReadFile c path sudo) w) /\
  balanced (trace_of E (DeleteFile c path sudo) w) /\
  balanced (trace_of E (ChmodFile c path permissions sudo) w) /\
  balanced (trace_of E (ChownFile c path owner sudo) w) /\
  balanced (trace_of E (ChgrpFile c path group sudo) w) /\
  balanced (trace_of E (FileExists c path sudo) w) /\
  balanced (trace_of E (ReadFilePermissions c path sudo) w) /\
  balanced (trace_of E (StatFile c path char sudo) w).
Proof.
  unfold WriteFile, WriteFileShell, WriteFileSCP, ReadFile, ReadFileShell,
    ReadFileSFTP, DeleteFile, DeleteFileShell, DeleteFileSFTP, ChmodFile,
    ChownFile, ChgrpFile, FileExists, ReadFilePermissions, StatFile,
    GetSCPClient, GetSFTPClient.
  repeat split; destruct sudo; operation.
Qed.

(** X19.  An operation that reports an error reports nothing else: the content,
    permissions or owner is the empty string, existence is [false]; output
    that a failed command had printed is dropped. *)
Theorem failed_reads_return_nothing (E : Env) (w : World E)
    (c : RemoteClient) (path char : string) (sudo : bool) :
  let silent (r : string * option goerror) :=
    match r with
    | (value, Some _) => value = ""
    | (_, None) => True
    end in
  silent (result_of E (ReadFile c path sudo) w) /\
  silent (result_of E (ReadFilePermissions c path sudo) w) /\
  silent (result_of E (StatFile c path char sudo) w) /\
  match result_of E (FileExists c path sudo) w with
  | (exists_, Some _) => exists_ = false
  | (_, None) => True
  end.
Proof.
  unfold ReadFile, ReadFileShell, ReadFileSFTP, ReadFilePermissions, StatFile,
    FileExists, GetSFTPClient.
  cbn zeta.
  repeat split; destruct sudo; operation; exact I.
Qed.

(** X20.  [FileExists] answers [true] only when the first probe ran and succeeded:
    then there is no error, the probe is the only command that was run, and
    no command failed. *)
Theorem FileExists_true_means_probe_succeeded (E : Env) (w : World E)
    (c : RemoteClient) (path : string) (sudo : bool) :
  (result_of E (FileExists c path sudo) w).1 = true ->
  (result_of E (FileExists c path sudo) w).2 = None /\
  commands (trace_of E (FileExists c path sudo) w) =
    [elevated sudo ("test -f " +:+ path)] /\
  failed_runs (trace_of E (FileExists c path sudo) w) = [].
Proof.
  unfold FileExists, elevated.
  destruct sudo; operation; intros H; try discriminate H;
    repeat split; reflexivity.
Qed.

Lemma FileExists_true_means_probe_succeeded_witness :
  let E := counting (behave quiet) in
  (result_of E (FileExists client7 "/x" true) 0%nat).1 = true /\
  commands (trace_of E (FileExists client7 "/x" true) 0%nat) =
    ["sudo test -f /x"].
Proof.
  intros E.
  assert (H : (result_of E (FileExists client7 "/x" true) 0%nat).1 = true)
    by reflexivity.
  split; [exact H |].
  exact (proj1 (proj2 (FileExists_true_means_probe_succeeded E 0%nat client7
                         "/x" true H))).
Defined.

(** ** Newlines *)

Lemma prefix_empty (s : string) : String.prefix "" s = true.
Proof. destruct s; reflexivity. Qed.

(** Replacing the newline by nothing drops the newline bytes one by one. *)
Lemma ReplaceAll_newline_cons (a : ascii) (s : string) :
  Go.ReplaceAll (String a s) Go.NL "" =
    if Ascii.eqb a Go.nl then Go.ReplaceAll s Go.NL ""
    else String a (Go.ReplaceAll s Go.NL "").
Proof.
  unfold Go.ReplaceAll, Go.NL. cbn [Go.replace_from String.prefix].
  destruct (Ascii.eqb_spec a Go.nl) as [-> | Hne].
  - destruct (ascii_dec Go.nl Go.nl) as [_ | Hn]; [| congruence].
    rewrite prefix_empty. reflexivity.
  - destruct (ascii_dec Go.nl a) as [He | _]; [congruence | reflexivity].
Qed.

Lemma ReplaceAll_newline_free (s : string) :
  has_newline (Go.ReplaceAll s Go.NL "") = false.
Proof.
  induction s as [| a s IH]; [reflexivity |].
  rewrite ReplaceAll_newline_cons.
  destruct (Ascii.eqb a Go.nl) eqn:Ha; [exact IH |].
  cbn [has_newline]. rewrite Ha, IH. reflexivity.
Qed.

Lemma ReplaceAll_newline_trailing (s : string) :
  has_newline s = false -> Go.ReplaceAll (s +:+ Go.NL) Go.NL "" = s.
Proof.
  induction s as [| a s IH]; [reflexivity |].
  cbn [has_newline]. intros H. apply orb_false_elim in H. destruct H as [Ha Hs].
  rewrite append_cons, ReplaceAll_newline_cons, Ha, (IH Hs). reflexivity.
Qed.

(** X21.  [StatFile], and with it [ReadFileOwner], [ReadFileGroup],
    [ReadFileOwnerName] and [ReadFileGroupName], never returns a newline; and
    the usual output of [stat], one line, comes back without its newline. *)
Theorem StatFile_strips_newlines (E : Env) (c : RemoteClient)
    (path char : string) (sudo : bool) (w w1 w2 : World E)
    (session : ssh_Session) (line : string) :
  has_newline (result_of E (StatFile c path char sudo) w).1 = false /\
  (handle E _ (Client_NewSession (GetSSHClient c)) w = (Ok session, w1) ->
   handle E _
     (Session_Output session
        (elevated sudo ("stat -c %" +:+ char +:+ " " +:+ path))) w1 =
     ((line +:+ Go.NL, None), w2) ->
   has_newline line = false ->
   result_of E (StatFile c path char sudo) w = (line, None)).
Proof.
  split.
  - unfold StatFile, result_of, defer. cbn.
    destruct sudo; all_calls; try reflexivity; apply ReplaceAll_newline_free.
  - intros Hs Ho Hline.
    unfold StatFile, result_of, defer, elevated in *. cbn.
    rewrite Hs. cbn.
    destruct sudo; rewrite Ho; cbn; all_calls;
      rewrite (ReplaceAll_newline_trailing line Hline); reflexivity.
Qed.

Lemma StatFile_strips_newlines_witness :
  let E := counting (behave (printing ("1000" +:+ Go.NL))) in
  result_of E (ReadFileOwner client7 "/x" true) 0%nat = ("1000", None).
Proof.
  intros E.
  apply (proj2 (StatFile_strips_newlines E client7 "/x" "u" true
                  0%nat 1%nat 2%nat 0%nat "1000"));
    reflexivity.
Defined.

Lemma TrimRight_newlines (s : string) :
  exists n : nat,
    s = Go.TrimRight s Go.nl +:+ newlines n /\
    ends_with_newline (Go.TrimRight s Go.nl) = false.
Proof.
  induction s as [| a s (n & Hs & He)].
  - exists O. split; reflexivity.
  - cbn [Go.TrimRight].
    destruct (Go.TrimRight s Go.nl) as [| b t] eqn:Ht.
    + destruct (Ascii.eqb_spec a Go.nl) as [-> | Hne].
      * exists (S n). rewrite Hs at 1. split; reflexivity.
      * exists n. rewrite Hs at 1. split; [reflexivity |].
        cbn. apply Ascii.eqb_neq. exact Hne.
    + exists n. rewrite Hs at 1. split; [reflexivity | exact He].
Qed.

Lemma append_nonempty (s t : string) : t <> "" -> s +:+ t <> "".
Proof. destruct s; [tauto | discriminate]. Qed.

Lemma ends_with_newline_append (s t : string) :
  t <> "" -> ends_with_newline (s +:+ t) = ends_with_newline t.
Proof.
  intros Ht. induction s as [| b s IH]; [reflexivity |].
  rewrite append_cons. cbn [ends_with_newline].
  destruct (s +:+ t) eqn:Hs; [destruct (append_nonempty s t Ht Hs) |].
  exact IH.
Qed.

(** X23.  The text of an [Error]: the command between backquotes, then the text of
    the transport error and the standard error on two indented lines; the
    standard error loses its trailing newlines and nothing else, and the text
    never ends with a newline. *)
Theorem Error_text (cmd stderr : string) (err : goerror) :
  (exists (kept : string) (n : nat),
     stderr = kept +:+ newlines n /\
     ends_with_newline kept = false /\
     Error_Error (Error cmd err stderr) =
       "`" +:+ cmd +:+ "`" +:+ Go.NL +:+ "  " +:+ Error_Error err +:+
       Go.NL +:+ "  " +:+ kept) /\
  ends_with_newline (Error_Error (Error cmd err stderr)) = false.
Proof.
  destruct (TrimRight_newlines stderr) as (n & Hs & He).
  split.
  - exists (Go.TrimRight stderr Go.nl), n.
    split; [exact Hs |]. split; [exact He | reflexivity].
  - cbn [Error_Error].
    change ("  " +:+ Go.TrimRight stderr Go.nl)
      with (String " " (String " " (Go.TrimRight stderr Go.nl))).
    repeat rewrite ends_with_newline_append
      by (repeat apply append_nonempty; discriminate).
    destruct (Go.TrimRight stderr Go.nl) as [| b t]; [reflexivity | exact He].
Qed.

(** ** Connections that are never closed *)

Lemma local_calls_close_nothing (tr : list event) :
  only_transport Local tr -> closed_clients tr = [].
Proof.
  unfold only_transport, closed_clients.
  induction 1 as [| ev tr Hev _ IH]; [reflexivity |].
  cbn [omap list_omap]. rewrite IH.
  destruct ev as [X e x]. destruct e; try discriminate Hev; reflexivity.
Qed.

Lemma closed_clients_app (tr1 tr2 : list event) :
  closed_clients (tr1 ++ tr2) = closed_clients tr1 ++ closed_clients tr2.
Proof. apply omap_app. Qed.

Lemma dials_close_nothing (E : Env) (w : World E) (host proxyHost : string)
    (clientConfig proxyClientConfig : ClientConfig) :
  closed_clients (trace_of E (NewRemoteClient host clientConfig) w) = [] /\
  closed_clients
    (trace_of E
       (NewRemoteProxyClient host clientConfig proxyHost proxyClientConfig) w)
    = [].
Proof.
  unfold NewRemoteClient, NewRemoteProxyClient, trace_of. cbn.
  split; all_calls; reflexivity.
Qed.

(** X17.  Connecting never closes a client.  In particular the client of the proxy,
    which [NewRemoteProxyClient] opens first, stays open when the tunnel or
    the handshake fails after it, and is not part of the [RemoteClient] that
    is returned on success. *)
Theorem connecting_closes_nothing (E : Env) (w : World E) (d : ResourceData)
    (host proxyHost : string) (clientConfig proxyClientConfig : ClientConfig) :
  closed_clients
    (trace_of E
       (NewRemoteProxyClient host clientConfig proxyHost proxyClientConfig) w)
    = [] /\
  closed_clients (trace_of E (remoteClientFromResourceData d) w) = [].
Proof.
  split; [apply dials_close_nothing |].
  pose proof (ConnectionFromResourceData_local E w d) as Hl1.
  apply local_calls_close_nothing in Hl1.
  unfold trace_of, remoteClientFromResourceData in *. rewrite exec_bind.
  destruct (exec E (ConnectionFromResourceData d) w) as [[r w1] tr1].
  cbn [fst snd] in Hl1.
  destruct r as [[addr cfg] | err];
    cbn -[ProxyConnectionFromResourceData NewRemoteClient NewRemoteProxyClient];
    [| rewrite app_nil_r; exact Hl1].
  pose proof (ProxyConnectionFromResourceData_local E w1 d) as Hl2.
  apply local_calls_close_nothing in Hl2.
  unfold trace_of in Hl2. rewrite exec_bind.
  destruct (exec E (ProxyConnectionFromResourceData d) w1) as [[r2 w2] tr2].
  cbn [fst snd] in Hl2.
  assert (Hdial : forall p,
            (p = NewRemoteClient addr cfg \/
             exists pa pc, p = NewRemoteProxyClient addr cfg pa pc) ->
            closed_clients (exec E p w2).2 = []).
  { intros p [-> | (pa & pc & ->)];
      apply (dials_close_nothing E w2 addr "" cfg cfg) ||
      apply (dials_close_nothing E w2 addr pa cfg pc). }
  destruct r2 as [[[pa pc] |] | err];
    cbn -[NewRemoteClient NewRemoteProxyClient].
  - destruct (negb (String.eqb pa "")).
    + specialize (Hdial (NewRemoteProxyClient addr cfg pa pc)
                    ltac:(right; eauto)).
      destruct (exec E (NewRemoteProxyClient addr cfg pa pc) w2) as [[r3 w3] tr3].
      cbn [fst snd] in *. rewrite !closed_clients_app, Hl1, Hl2, Hdial.
      reflexivity.
    + specialize (Hdial (NewRemoteClient addr cfg) ltac:(left; reflexivity)).
      destruct (exec E (NewRemoteClient addr cfg) w2) as [[r3 w3] tr3].
      cbn [fst snd] in *. rewrite !closed_clients_app, Hl1, Hl2, Hdial.
      reflexivity.
  - specialize (Hdial (NewRemoteClient addr cfg) ltac:(left; reflexivity)).
    destruct (exec E (NewRemoteClient addr cfg) w2) as [[r3 w3] tr3].
    cbn [fst snd] in *. rewrite !closed_clients_app, Hl1, Hl2, Hdial.
    reflexivity.
  - rewrite app_nil_r, closed_clients_app, Hl1, Hl2. reflexivity.
Qed.

(** ** The resource identifier *)

Lemma append_assoc (s t u : string) : (s +:+ t) +:+ u = s +:+ (t +:+ u).
Proof.
  induction s as [| a s IH]; [reflexivity |].
  rewrite !append_cons, IH. reflexivity.
Qed.

Lemma append_cancel (s t1 t2 : string) : s +:+ t1 = s +:+ t2 -> t1 = t2.
Proof.
  induction s as [| a s IH]; [tauto |].
  rewrite !append_cons. intros [= H]. exact (IH H).
Qed.

(** X24.  The identifier is [host:port:path], with [proxy_host:proxy_port|] in
    front exactly when the proxy has a host and a port other than 0; and on
    one connection two paths have the same identifier only if they are the
    same path. *)
Theorem setResourceID_format (path path' : string) (connData : ResourceData) :
  setResourceID path connData =
    (if configured "" (proxy_conn connData) host &&
        configured 0 (proxy_conn connData) port
     then Get "" (proxy_conn connData) host +:+ ":" +:+
          Go.Itoa (Get 0 (proxy_conn connData) port) +:+ "|"
     else "") +:+
    Get "" (conn connData) host +:+ ":" +:+
    Go.Itoa (Get 0 (conn connData) port) +:+ ":" +:+ path /\
  (setResourceID path connData = setResourceID path' connData ->
   path = path').
Proof.
  assert (Hfmt : forall p, setResourceID p connData =
    (if configured "" (proxy_conn connData) host &&
        configured 0 (proxy_conn connData) port
     then Get "" (proxy_conn connData) host +:+ ":" +:+
          Go.Itoa (Get 0 (proxy_conn connData) port) +:+ "|"
     else "") +:+
    Get "" (conn connData) host +:+ ":" +:+
    Go.Itoa (Get 0 (conn connData) port) +:+ ":" +:+ p).
  { intros p. unfold setResourceID, configured.
    rewrite resourceStringWithDefault_Get.
    unfold resourceIntWithDefault, GetOk. cbn [fst snd].
    destruct (bool_decide_reflect (Get "" (proxy_conn connData) host = ""))
      as [-> | Hh]; [reflexivity |].
    destruct (String.eqb_spec (Get "" (proxy_conn connData) host) "");
      [contradiction |].
    destruct (bool_decide (Get 0 (proxy_conn connData) port = 0)) eqn:Hp;
      cbn [negb andb]; [reflexivity |].
    destruct (String.eqb_spec (Go.Itoa (Get 0 (proxy_conn connData) port)) "")
      as [He | _]; [destruct (Itoa_nonempty _ He) |].
    cbn [negb]. rewrite !append_assoc. reflexivity. }
  split; [apply Hfmt |].
  rewrite !Hfmt. intros H.
  repeat apply append_cancel in H. exact H.
Qed.

Lemma setResourceID_format_witness :
  setResourceID "/tmp/hello.txt" data_proxied =
    "localhost:8022|remotehost2:22:/tmp/hello.txt" /\
  setResourceID "/tmp/.bashrc" data_direct = "localhost:8022:/tmp/.bashrc" /\
  (setResourceID "/tmp/.bashrc" data_direct =
     setResourceID "/tmp/.bashrc" data_direct -> "/tmp/.bashrc" = "/tmp/.bashrc").
Proof.
  split; [reflexivity |]. split; [reflexivity |].
  exact (proj2 (setResourceID_format "/tmp/.bashrc" "/tmp/.bashrc" data_direct)).
Defined.

(** ** Permissions of three and of four digits *)

(** X22.  The session granted and [stat] successful, output that is three bytes
    long without its newlines comes back with one ["0"] in front, four bytes;
    output of four bytes or more, or empty output, comes back as it is,
    without its newlines. *)
Theorem ReadFilePermissions_canonical (E : Env) (c : RemoteClient)
    (path : string) (sudo : bool) (w w1 w2 : World E) (session : ssh_Session)
    (output : string) :
  let permissions := Go.ReplaceAll output Go.NL "" in
  handle E _ (Client_NewSession (GetSSHClient c)) w = (Ok session, w1) ->
  handle E _ (Session_Output session (elevated sudo ("stat -c %a " +:+ path)))
    w1 = ((output, None), w2) ->
  (Go.len permissions = 3 ->
   result_of E (ReadFilePermissions c path sudo) w =
     ("0" +:+ permissions, None) /\
   Go.len ("0" +:+ permissions) = 4) /\
  (4 <= Go.len permissions \/ Go.len permissions = 0 ->
   result_of E (ReadFilePermissions c path sudo) w = (permissions, None)).
Proof.
  intros permissions Hs Ho.
  rewrite (ReadFilePermissions_result E c path sudo w w1 w2 session output Hs Ho).
  fold permissions. cbn zeta.
  split.
  - intros H3. rewrite H3. cbn [Z.ltb Z.compare Pos.compare Pos.compare_cont andb].
    split; [reflexivity |].
    unfold Go.len in *.
    change (String.length ("0" +:+ permissions))
      with (S (String.length permissions)).
    lia.
  - intros H4.
    destruct (Z.ltb_spec 0 (Go.len permissions)),
             (Z.ltb_spec (Go.len permissions) 4); cbn [andb];
      try reflexivity; lia.
Qed.

Lemma ReadFilePermissions_canonical_witness :
  let E := counting (behave (printing ("755" +:+ Go.NL))) in
  result_of E (ReadFilePermissions client7 "/x" true) 0%nat = ("0755", None).
Proof.
  intros E.
  apply (proj1 (ReadFilePermissions_canonical E client7 "/x" true
                  0%nat 1%nat 2%nat 0%nat ("755" +:+ Go.NL)
                  eq_refl eq_refl)).
  reflexivity.
Defined.

(** ** What a write delivers *)

(** X25.  [WriteFile] hands the content to the remote side as it is and once: to
    the standard input of the command when elevation is requested, to the bulk
    copy otherwise; nothing is handed over when the session with its standard
    input, or the bulk-copy client, is not granted. *)
Theorem WriteFile_delivers_content (E : Env) (w : World E) (c : RemoteClient)
    (content path permissions : string) (sudo : bool) :
  delivered (trace_of E (WriteFile c content path permissions sudo) w) =
    if (if sudo then stdin_granted E c w else scp_granted E c w)
    then [content] else [].
Proof.
  unfold WriteFile, WriteFileShell, WriteFileSCP, GetSCPClient, delivered,
    trace_of, stdin_granted, scp_granted, run, defer.
  destruct sudo; cbn; all_calls; reflexivity.
Qed.

(** ** A release whose close fails *)

(** X7.  When closing the client fails, the release of the last session returns
    that error, and the entry is removed and the counter is 0 all the same. *)
Theorem failed_close_still_removes (E : Env) (w w1 : World E)
    (d : ResourceData) (c : apiClient) (client : RemoteClient)
    (err : goerror) :
  let k := resourceConnectionHash d in
  remoteClients c !! k = Some client ->
  active c k = 1 ->
  handle E _ (Client_Close (sshClient client)) w = (Some err, w1) ->
  exists c' : apiClient,
    exec E (closeRemoteClient d c) w =
      ((Returned (Some err), c'), w1,
       [Event (Client_Close (sshClient client)) (Some err)]) /\
    remoteClients c' !! k = None /\
    active c' k = 0 /\
    forall k' : string, k' <> k ->
      remoteClients c' !! k' = remoteClients c !! k' /\
      active c' k' = active c k'.
Proof.
  intros k Hc Ha Hclose. subst k.
  unfold closeRemoteClient.
  rewrite active_set_active. destruct (decide _); [| congruence].
  rewrite Ha. change (Go.wrap (1 - 1)) with 0. cbn [Z.eqb].
  change (remoteClients (set_active c (resourceConnectionHash d) 0))
    with (remoteClients c).
  rewrite Hc. unfold Close. cbn. rewrite Hclose.
  eexists. split; [reflexivity |].
  split; [cbn; apply lookup_delete_eq |].
  split.
  - pool_simpl. destruct (decide _); [reflexivity | congruence].
  - intros k' Hk. split.
    + cbn. apply lookup_delete_ne. congruence.
    + pool_simpl. destruct (decide _); [congruence | reflexivity].
Qed.

Lemma failed_close_still_removes_witness :
  let E := counting (close_fails connection_lost) in
  let c := (exec E (pool_run [Acquire data_direct] (configure data_direct))
              0%nat).1.1.2 in
  exists c' : apiClient,
    exec E (closeRemoteClient data_direct c) 1%nat =
      ((Returned (Some connection_lost), c'), 2%nat,
       [Event (Client_Close 0%nat) (Some connection_lost)]) /\
    remoteClients c' !! resourceConnectionHash data_direct = None.
Proof.
  intros E c.
  destruct (failed_close_still_removes E 1%nat 2%nat data_direct c
              {| sshClient := 0%nat |} connection_lost
              ltac:(vm_compute; reflexivity) ltac:(vm_compute; reflexivity)
              eq_refl)
    as (c' & Hrun & Hgone & _).
  exists c'. split; [exact Hrun | exact Hgone].
Defined.
